(** * youtube_downloader: a shallow embedding of [youtube_downloader.py]

    The program is a Tk front end over the [yt_dlp] library.  Its logic is
    - [is_youtube_url]: the URL validator,
    - [find_ffmpeg_folder]: the probe for a bundled muxer,
    - [make_ydl_opts]: the options dictionary with its format expression and
      its two hooks ([progress_hook], [postprocessor_hook]),
    - the [App] methods [start_download], [ui_update], [ui_note], [ui_done],
      [ui_error] and [_download_worker].

    Python values, dictionaries and exceptions are modelled as data; what the
    program takes from its surroundings (the [str] methods, [pathlib], the
    file system, the [yt_dlp] run) is an interface (a type class or an
    argument), with executable instances used in the examples. *)

From Stdlib Require Import ZArith Floats Ascii String DecimalString.
From stdpp Require Import gmap strings list.

Local Open Scope string_scope.
Local Open Scope list_scope.

(** ** Python values *)

Module Py.

(** Exception classes the model tells apart.  [except Exception] catches
    the first four; the last three derive from [BaseException] only. *)
Inductive exn_class :=
| ZeroDivisionError
| TypeError
| OverflowError
| OtherException (name : string)
| SystemExit
| KeyboardInterrupt
| GeneratorExit.

Record exn := Raise { exn_cls : exn_class; exn_msg : string }.

(** [isinstance(e, Exception)] *)
Definition is_Exception (e : exn) : bool :=
  match exn_cls e with
  | SystemExit | KeyboardInterrupt | GeneratorExit => false
  | _ => true
  end.

(** The values a [yt_dlp] hook dictionary carries. *)
Inductive val :=
| None_
| Bool (b : bool)
| Int (z : Z)
| Float (f : float)
| Str (s : string).

(** Truth value testing: [None], [False], zero of any numeric type and the
    empty string are false.  A NaN is not equal to zero, hence true. *)
Definition truthy (v : val) : bool :=
  match v with
  | None_ => false
  | Bool b => b
  | Int z => negb (z =? 0)%Z
  | Float f => negb (f =? 0)%float
  | Str s => negb (String.eqb s "")
  end.

(** [a or b] *)
Definition or_ (a b : val) : val := if truthy a then a else b.

(** [d.get(k)] and [d.get(k, default)] *)
Definition get (d : gmap string val) (k : string) : val :=
  default None_ (d !! k).
Definition get_default (d : gmap string val) (k : string) (dflt : val) : val :=
  default dflt (d !! k).

(** [a == b] against a string literal *)
Definition eq_str (v : val) (s : string) : bool :=
  match v with Str s' => String.eqb s' s | _ => false end.

(** *** Numbers *)

(** [float(z)] for an [int]: the nearest double, [OverflowError] when
    there is none. *)
Definition float_of_Z (z : Z) : exn + float :=
  let f := SF2Prim (binary_normalize 53 1024 z 0 false) in
  if is_infinity f
  then inl (Raise OverflowError "int too large to convert to float")
  else inr f.

(** [x / y] for two [int]s, [y] not zero: the exact quotient rounded once
    to the nearest double.  The quotient is computed with at least three
    more bits than a double holds and the remainder is kept as a sticky
    bit, so that [binary_normalize] rounds as it would the exact value. *)
Definition int_true_div (x y : Z) : exn + float :=
  let a := Z.abs x in
  let b := Z.abs y in
  let k := Z.max 0 (56 + Z.log2 b - Z.log2 a) in
  let q := (a * 2 ^ k / b)%Z in
  let r := (a * 2 ^ k mod b)%Z in
  let m := (2 * q + (if (r =? 0)%Z then 0 else 1))%Z in
  let neg := xorb (x <? 0)%Z (y <? 0)%Z in
  let f := SF2Prim (binary_normalize 53 1024 (if neg then - m else m) (- k - 1) neg) in
  if is_infinity f
  then inl (Raise OverflowError "integer division result too large for a float")
  else inr f.

Definition int_of_bool (b : bool) : Z := if b then 1%Z else 0%Z.

(** The operand as an [int], for [bool] and [int]. *)
Definition as_int (v : val) : option Z :=
  match v with
  | Bool b => Some (int_of_bool b)
  | Int z => Some z
  | _ => None
  end.

(** The operand as a [float], for the numeric types. *)
Definition as_float (v : val) : option (exn + float) :=
  match v with
  | Bool b => Some (float_of_Z (int_of_bool b))
  | Int z => Some (float_of_Z z)
  | Float f => Some (inr f)
  | _ => None
  end.

(** A numeric operand that is zero.  An [int] is zero exactly when the
    double it converts to is. *)
Definition is_zero (v : val) : bool :=
  match v with
  | Bool b => negb b
  | Int z => (z =? 0)%Z
  | Float f => (f =? 0)%float
  | _ => false
  end.

(** [a / b] (true division).  Two integers divide exactly; otherwise both
    operands become floats first, the left one first.  A zero divisor
    raises. *)
Definition truediv (a b : val) : exn + float :=
  match as_int a, as_int b with
  | Some x, Some y =>
      if (y =? 0)%Z then inl (Raise ZeroDivisionError "division by zero")
      else int_true_div x y
  | _, _ =>
      match as_float a, as_float b with
      | Some (inl e), Some _ => inl e
      | Some (inr _), Some (inl e) => inl e
      | Some (inr x), Some (inr y) =>
          if is_zero b
          then inl (Raise ZeroDivisionError "float division by zero")
          else inr (x / y)%float
      | _, _ => inl (Raise TypeError "unsupported operand type(s) for /")
      end
  end.

(** [str(z)] for an [int] *)
Definition str_of_Z (z : Z) : string :=
  DecimalString.NilZero.string_of_int (Z.to_int z).

End Py.

(** ** What the program takes from Python's [str] and [float]

    [lower] and [strip] are the methods of [str]; [format_float n] is the
    format specification [:.nf] and [str_float] is [str] of a float. *)

Class Builtins := {
  lower : string → string;
  strip : string → string;
  strip_empty : strip "" = "";
  format_float : nat → float → string;
  str_float : float → string;
}.

(** [str(v)], as an f-string renders a value. *)
Definition py_str `{Builtins} (v : Py.val) : string :=
  match v with
  | Py.None_ => "None"
  | Py.Bool true => "True"
  | Py.Bool false => "False"
  | Py.Int z => Py.str_of_Z z
  | Py.Float f => str_float f
  | Py.Str s => s
  end.

(** ** Substring test *)

(** [s.startswith(p)] *)
Fixpoint startswith (p s : string) : bool :=
  match p, s with
  | EmptyString, _ => true
  | String a p', String b s' => Ascii.eqb a b && startswith p' s'
  | String _ _, EmptyString => false
  end.

(** [needle in hay] *)
Fixpoint str_in (needle hay : string) : bool :=
  startswith needle hay
  || match hay with
     | EmptyString => false
     | String _ hay' => str_in needle hay'
     end.

(** [hay] contains [needle]: some text, the needle, some text. *)
Definition contains (hay needle : string) : Prop :=
  ∃ pre post : string, hay = pre +:+ needle +:+ post.

(** ** Helpers of the program *)

(** [url or ""]; the annotation says [str], the code also takes [None]. *)
Definition or_empty (url : option string) : string := default "" url.

Definition is_youtube_url `{Builtins} (url : option string) : bool :=
  let u := lower (or_empty url) in
  str_in "youtube.com" u || str_in "youtu.be" u.

(** ** Paths and the file system

    [pathlib] and [os] are taken as an interface.  [Path] is [pathlib.Path],
    [FS] a state of the file system.  The three laws are pathlib's:
    [str] of a path is never empty (the empty path prints as a dot), and
    [mkdir(parents=True, exist_ok=True)], when it returns, leaves a
    directory and changes nothing if the directory was there. *)

Class OS := {
  Path : Type;
  mkPath : string → Path;
  joinpath : Path → string → Path;
  parent : Path → Path;
  path_str : Path → string;
  path_str_nonempty : ∀ p, path_str p ≠ "";
  FS : Type;
  resolve : FS → Path → Path;
  exists_ : FS → Path → bool;
  is_dir : FS → Path → bool;
  mkdir_parents : FS → Path → Py.exn + FS;
  mkdir_parents_is_dir :
    ∀ fs p fs', mkdir_parents fs p = inr fs' → is_dir fs' p = true;
  mkdir_parents_exist_ok :
    ∀ fs p, is_dir fs p = true → mkdir_parents fs p = inr fs;
  os_path_join : string → string → string;
}.

Notation "p // name" := (joinpath p name) (at level 40, left associativity).

(** The attributes of [sys] and the module the program reads:
    [getattr(sys, "frozen", False)], [sys.executable], [__file__] and
    [getattr(sys, "_MEIPASS", None)]. *)
Record Sys := {
  frozen : bool;
  executable : string;
  __file__ : string;
  _MEIPASS : option string;
}.

(** Truth value of [str | None] *)
Definition truthy_str (o : option string) : bool :=
  match o with
  | Some s => negb (String.eqb s "")
  | None => false
  end.

Section Probe.
Context `{OS}.

Definition app_base_dir (sys : Sys) (fs : FS) : Path :=
  if frozen sys
  then parent (resolve fs (mkPath (executable sys)))
  else parent (resolve fs (mkPath (__file__ sys))).

(** The list [candidates] as it stands when the loop starts. *)
Definition candidates (sys : Sys) (fs : FS) : list Path :=
  let candidates := [] in
  let meipass := _MEIPASS sys in
  let candidates :=
    if truthy_str meipass
    then candidates ++ [mkPath (or_empty meipass)]
    else candidates in
  let base := app_base_dir sys fs in
  let candidates := candidates ++ [base] in
  candidates ++ [base // "ffmpeg"].

(** The test of the loop body. *)
Definition has_tools (fs : FS) (c : Path) : bool :=
  exists_ fs (c // "ffmpeg.exe") && exists_ fs (c // "ffprobe.exe").

(** The loop [for c in candidates], with its early [return]. *)
Fixpoint first_with_tools (fs : FS) (cs : list Path) : option string :=
  match cs with
  | [] => None
  | c :: cs' =>
      if has_tools fs c then Some (path_str c) else first_with_tools fs cs'
  end.

Definition find_ffmpeg_folder (sys : Sys) (fs : FS) : option string :=
  first_with_tools fs (candidates sys fs).

End Probe.

(** ** The options dictionary *)

(** A hook takes the library's status dictionary; a call of [ui_update] or
    [ui_note] is an action of type [A], and the hook returns the actions it
    performed, in order, or raises. *)
Definition hook (A : Type) : Type := gmap string Py.val → Py.exn + list A.

(** The values of the options dictionary. *)
Inductive optval (A : Type) :=
| OStr (s : string)
| OBool (b : bool)
| OInt (z : Z)
| OHooks (hs : list (hook A)).
Arguments OStr {A} s.
Arguments OBool {A} b.
Arguments OInt {A} z.
Arguments OHooks {A} hs.

Definition fmt_merge : string :=
  "bv*[ext=mp4]+ba[ext=m4a]/bv*+ba/best".
Definition fmt_single : string :=
  "best[vcodec!=none][acodec!=none][ext=mp4]/best[vcodec!=none][acodec!=none]/best".

Definition note_detected : string :=
  "FFmpeg detected: Highest quality (video+audio merge) enabled.".
Definition note_not_detected : string :=
  "FFmpeg not detected: using single-file format (sound guaranteed, may be <=720p).".

(** A raising computation: [inl e] raises [e], [inr x] returns [x]. *)
Definition bind_exn {A B} (m : Py.exn + A) (k : A → Py.exn + B) : Py.exn + B :=
  match m with
  | inl e => inl e
  | inr x => k x
  end.

Notation "'do' x <- m ; k" := (bind_exn m (fun x => k))
  (at level 10, x name, m at level 100, k at level 200).

(** [make_ydl_opts] and the two hooks it defines, which close over its
    arguments [ui_update] and [ui_note]. *)
Section Hooks.
Context `{Builtins} {A : Type}.
Variable ui_update : float → string → A.
Variable ui_note : string → A.

Definition progress_hook : hook A := λ d,
  let status := Py.get d "status" in
  if Py.eq_str status "downloading" then
    let total :=
      Py.or_ (Py.or_ (Py.get d "total_bytes") (Py.get d "total_bytes_estimate"))
             (Py.Int 0) in
    let downloaded := Py.or_ (Py.get d "downloaded_bytes") (Py.Int 0) in
    do pct <- (if Py.truthy total
               then do q <- Py.truediv downloaded total; inr (q * 100)%float
               else inr 0%float);
    let speed := Py.get d "speed" in
    let eta := Py.get d "eta" in
    let msg := "Downloading… " +:+ format_float 1 pct +:+ "%" in
    do msg <- (if Py.truthy speed
               then do s1 <- Py.truediv speed (Py.Int 1024);
                    do s2 <- Py.truediv (Py.Float s1) (Py.Int 1024);
                    inr (msg +:+ " | " +:+ format_float 2 s2 +:+ " MB/s")
               else inr msg);
    let msg :=
      match eta with
      | Py.None_ => msg
      | _ => msg +:+ " | ETA " +:+ py_str eta +:+ "s"
      end in
    inr [ui_update pct msg]
  else if Py.eq_str status "finished" then
    inr [ui_update 100%float "Download finished. Processing/merging…"]
  else inr [].

Definition postprocessor_hook : hook A := λ d,
  let status := Py.get d "status" in
  let name := Py.get_default d "postprocessor" (Py.Str "") in
  if Py.eq_str status "started" then
    inr [ui_note ("Post-processing started: "
                  +:+ py_str (Py.or_ name (Py.Str "processing")) +:+ "…")]
  else if Py.eq_str status "finished" then
    inr [ui_note "Post-processing finished."]
  else inr [].

(** [make_ydl_opts]: the dictionary it returns and the [ui_note] calls it
    makes.  The dictionary literal is built key by key, the two muxer keys
    are added after it. *)
Definition make_ydl_opts `{OS} (sys : Sys) (fs : FS) (url out_dir : string)
  : gmap string (optval A) * list A :=
  let ffmpeg_loc := find_ffmpeg_folder sys fs in
  let '(fmt, notes) :=
    if truthy_str ffmpeg_loc
    then (fmt_merge, [ui_note note_detected])
    else (fmt_single, [ui_note note_not_detected]) in
  let ydl_opts : gmap string (optval A) :=
    <["fragment_retries" := OInt 3]>
    (<["retries" := OInt 3]>
    (<["postprocessor_hooks" := OHooks [postprocessor_hook]]>
    (<["progress_hooks" := OHooks [progress_hook]]>
    (<["no_warnings" := OBool true]>
    (<["quiet" := OBool true]>
    (<["noplaylist" := OBool true]>
    (<["outtmpl" := OStr (os_path_join out_dir "%(title)s [%(id)s].%(ext)s")]>
    (<["format" := OStr fmt]> ∅)))))))) in
  let ydl_opts :=
    if truthy_str ffmpeg_loc
    then <["merge_output_format" := OStr "mp4"]>
         (<["ffmpeg_location" := OStr (or_empty ffmpeg_loc)]> ydl_opts)
    else ydl_opts in
  (ydl_opts, notes).

End Hooks.

(** The status dictionaries of [yt_dlp] carry the speed as a float, or
    [None] when it is unknown. *)
Definition speed_ok (d : gmap string Py.val) : Prop :=
  Py.truthy (Py.get d "speed") = false ∨ ∃ s, Py.get d "speed" = Py.Float s.

(** ** The window

    The widgets [App] reads and writes, and the modal boxes
    [messagebox.showerror] has shown (title, message), oldest first. *)

Inductive btn_state := normal | disabled.

Record Widgets := {
  url_var : string;
  out_var : string;
  status_var : string;
  note_var : string;
  progress_var : float;
  btn_download : btn_state;
  shown : list (string * string);
}.

Definition showerror (title msg : string) (w : Widgets) : Widgets :=
  {| url_var := url_var w; out_var := out_var w; status_var := status_var w;
     note_var := note_var w; progress_var := progress_var w;
     btn_download := btn_download w; shown := shown w ++ [(title, msg)] |}.

Definition set_btn (b : btn_state) (w : Widgets) : Widgets :=
  {| url_var := url_var w; out_var := out_var w; status_var := status_var w;
     note_var := note_var w; progress_var := progress_var w;
     btn_download := b; shown := shown w |}.

Definition set_progress (p : float) (w : Widgets) : Widgets :=
  {| url_var := url_var w; out_var := out_var w; status_var := status_var w;
     note_var := note_var w; progress_var := p;
     btn_download := btn_download w; shown := shown w |}.

Definition set_status (s : string) (w : Widgets) : Widgets :=
  {| url_var := url_var w; out_var := out_var w; status_var := s;
     note_var := note_var w; progress_var := progress_var w;
     btn_download := btn_download w; shown := shown w |}.

Definition set_note (s : string) (w : Widgets) : Widgets :=
  {| url_var := url_var w; out_var := out_var w; status_var := status_var w;
     note_var := s; progress_var := progress_var w;
     btn_download := btn_download w; shown := shown w |}.

Definition set_out (s : string) (w : Widgets) : Widgets :=
  {| url_var := url_var w; out_var := s; status_var := status_var w;
     note_var := note_var w; progress_var := progress_var w;
     btn_download := btn_download w; shown := shown w |}.

Definition set_url (s : string) (w : Widgets) : Widgets :=
  {| url_var := s; out_var := out_var w; status_var := status_var w;
     note_var := note_var w; progress_var := progress_var w;
     btn_download := btn_download w; shown := shown w |}.

(** [App.__init__]; [downloads] is [str(Path.home() / "Downloads")]. *)
Definition App_init (downloads : string) : Widgets :=
  {| url_var := ""; out_var := downloads; status_var := "Idle";
     note_var := ""; progress_var := 0%float; btn_download := normal;
     shown := [] |}.

(** The functions the four [ui_] helpers hand to [self.after(0, ...)]. *)
Inductive callback :=
| cb_update (pct : float) (msg : string)
| cb_note (msg : string)
| cb_done (msg : string)
| cb_error (msg : string).

(** What the event loop does when it runs a scheduled function. *)
Definition run_callback (cb : callback) (w : Widgets) : Widgets :=
  match cb with
  | cb_update pct msg => set_status msg (set_progress pct w)
  | cb_note msg => set_note msg w
  | cb_done msg =>
      set_btn normal (set_status msg (set_progress 100%float w))
  | cb_error msg =>
      showerror "Download error" msg (set_status "Failed." (set_btn normal w))
  end.

(** The helpers themselves: each schedules one function and returns. *)
Definition ui_update (pct : float) (msg : string) : callback := cb_update pct msg.
Definition ui_note (msg : string) : callback := cb_note msg.
Definition ui_done (msg : string) : callback := cb_done msg.
Definition ui_error (msg : string) : callback := cb_error msg.

(** ** One run of the library

    [yt_dlp.YoutubeDL(ydl_opts)] and [extract_info(url, download=True)]:
    the hook events the library fires, in order, and then what
    [extract_info] does: it raises, or returns [info] ([None] or a
    dictionary). *)

Inductive event :=
| on_progress (d : gmap string Py.val)
| on_postprocess (d : gmap string Py.val).

Record ydl_run := {
  ydl_events : list event;
  ydl_result : Py.exn + option (gmap string Py.val);
}.

Definition hooks_of {A} (opts : gmap string (optval A)) (key : string)
  : list (hook A) :=
  match opts !! key with
  | Some (OHooks hs) => hs
  | _ => []
  end.

Section Worker.
Context `{Builtins} `{OS}.

(** The hooks registered under [key] are called in order on [d]; the
    first that raises ends the calls. *)
Fixpoint call_hooks (hs : list (hook callback)) (d : gmap string Py.val)
  : list callback * option Py.exn :=
  match hs with
  | [] => ([], None)
  | h :: hs' =>
      match h d with
      | inl e => ([], Some e)
      | inr cbs =>
          let '(cbs', r) := call_hooks hs' d in (cbs ++ cbs', r)
      end
  end.

Definition fire (opts : gmap string (optval callback)) (ev : event)
  : list callback * option Py.exn :=
  match ev with
  | on_progress d => call_hooks (hooks_of opts "progress_hooks") d
  | on_postprocess d => call_hooks (hooks_of opts "postprocessor_hooks") d
  end.

(** The events of a run; an exception of a hook leaves [extract_info]. *)
Fixpoint run_events (opts : gmap string (optval callback)) (evs : list event)
  : list callback * option Py.exn :=
  match evs with
  | [] => ([], None)
  | ev :: evs' =>
      match fire opts ev with
      | (cbs, Some e) => (cbs, Some e)
      | (cbs, None) =>
          let '(cbs', r) := run_events opts evs' in (cbs ++ cbs', r)
      end
  end.

(** The [try] block of [_download_worker]: the functions it scheduled and
    how it ended. *)
Definition worker_body (ydl : gmap string (optval callback) → string → ydl_run)
    (sys : Sys) (fs : FS) (url out_dir : string)
  : list callback * (Py.exn + unit) :=
  let '(ydl_opts, notes) := make_ydl_opts ui_update ui_note sys fs url out_dir in
  let run := ydl ydl_opts url in
  match run_events ydl_opts (ydl_events run) with
  | (cbs, Some e) => (notes ++ cbs, inl e)
  | (cbs, None) =>
      match ydl_result run with
      | inl e => (notes ++ cbs, inl e)
      | inr info =>
          let title := Py.get_default (default ∅ info) "title" (Py.Str "Done") in
          (notes ++ cbs ++ [ui_done ("Done: " +:+ py_str title)], inr tt)
      end
  end.

(** [_download_worker]: the functions scheduled, in order, and the
    exception that leaves the worker, if one does.
    [except Exception as e] handles the instances of [Exception]. *)
Definition _download_worker (ydl : gmap string (optval callback) → string → ydl_run)
    (sys : Sys) (fs : FS) (url out_dir : string)
  : list callback * option Py.exn :=
  match worker_body ydl sys fs url out_dir with
  | (q, inr _) => (q, None)
  | (q, inl e) =>
      if Py.is_Exception e
      then (q ++ [ui_error (Py.exn_msg e)], None)
      else (q, Some e)
  end.

(** How [start_download] ends. *)
Inductive started :=
| Rejected (w : Widgets)
| MkdirRaised (e : Py.exn)
| Spawned (w : Widgets) (fs : FS) (url out_dir : string).

(** [start_download]; [Spawned w fs url out_dir] is the call
    [Thread(target=self._download_worker, args=(url, out_dir)).start()]
    in the window [w] and the file system [fs]. *)
Definition start_download (w : Widgets) (fs : FS) : started :=
  let url := strip (url_var w) in
  let out_dir := strip (out_var w) in
  if negb (is_youtube_url (Some url)) then
    Rejected (showerror "Invalid input" "Please paste a valid YouTube URL." w)
  else if negb (truthy_str (Some out_dir)) then
    Rejected (showerror "Invalid input" "Please choose an output folder." w)
  else
    match mkdir_parents fs (mkPath out_dir) with
    | inl e => MkdirRaised e
    | inr fs' =>
        let w := set_btn disabled w in
        let w := set_progress 0%float w in
        let w := set_status "Starting…" w in
        let w := set_note "" w in
        Spawned w fs' url out_dir
    end.

End Worker.

(** ** The running program

    The window, the file system, the functions waiting in the event loop
    (scheduled by [after(0, ...)], run first in first out) and the worker
    threads that are alive, each with the functions it has yet to schedule.
    A download runs as long as its thread is in [threads]. *)

Record state `{OS} := {
  widgets : Widgets;
  files : FS;
  queue : list callback;
  threads : list (list callback);
}.

(** [ui_done] and [ui_error] end a worker. *)
Definition terminal (cb : callback) : bool :=
  match cb with
  | cb_done _ | cb_error _ => true
  | _ => false
  end.

Section Machine.
Context `{Builtins} `{OS}.
Variable sys : Sys.

Definition initial (downloads : string) (fs : FS) : state :=
  {| widgets := App_init downloads; files := fs; queue := []; threads := [] |}.

(** A thread that schedules its last function ends with it. *)
Definition advance (rest : list callback) : list (list callback) :=
  match rest with
  | [] => []
  | _ => [rest]
  end.

(** One step of the program.  The user edits an entry or picks a folder;
    the user clicks the button, which Tk delivers to [start_download] only
    while the button is enabled; a worker schedules its next function, or
    ends; the event loop runs the next scheduled function. *)
Inductive step : state → state → Prop :=
| step_edit_url s text :
    step s {| widgets := set_url text (widgets s); files := files s;
              queue := queue s; threads := threads s |}
| step_edit_out s text :
    step s {| widgets := set_out text (widgets s); files := files s;
              queue := queue s; threads := threads s |}
| step_click_rejected s w' :
    btn_download (widgets s) = normal →
    start_download (widgets s) (files s) = Rejected w' →
    step s {| widgets := w'; files := files s;
              queue := queue s; threads := threads s |}
| step_click_raised s e :
    btn_download (widgets s) = normal →
    start_download (widgets s) (files s) = MkdirRaised e →
    step s s
| step_click_spawned s w' fs' url out_dir ydl :
    btn_download (widgets s) = normal →
    start_download (widgets s) (files s) = Spawned w' fs' url out_dir →
    step s {| widgets := w'; files := fs'; queue := queue s;
              threads := threads s
                         ++ [(_download_worker ydl sys fs' url out_dir).1] |}
| step_worker s pre cb rest post :
    threads s = pre ++ (cb :: rest) :: post →
    step s {| widgets := widgets s; files := files s;
              queue := queue s ++ [cb];
              threads := pre ++ advance rest ++ post |}
| step_worker_exit s pre post :
    threads s = pre ++ [] :: post →
    step s {| widgets := widgets s; files := files s;
              queue := queue s; threads := pre ++ post |}
| step_loop s cb q :
    queue s = cb :: q →
    step s {| widgets := run_callback cb (widgets s); files := files s;
              queue := q; threads := threads s |}.

Definition reachable (downloads : string) (fs : FS) (s : state) : Prop :=
  rtc step (initial downloads fs) s.

(** A schedule: what happens next, for a program with at most one thread.
    [exec] performs one action, [run] a list of them. *)
Inductive action :=
| do_edit_url (text : string)
| do_edit_out (text : string)
| do_click (ydl : gmap string (optval callback) → string → ydl_run)
| do_worker
| do_loop.

Definition exec (a : action) (s : state) : option state :=
  match a with
  | do_edit_url text =>
      Some {| widgets := set_url text (widgets s); files := files s;
              queue := queue s; threads := threads s |}
  | do_edit_out text =>
      Some {| widgets := set_out text (widgets s); files := files s;
              queue := queue s; threads := threads s |}
  | do_click ydl =>
      match btn_download (widgets s) with
      | disabled => None
      | normal =>
          match start_download (widgets s) (files s) with
          | Rejected w' =>
              Some {| widgets := w'; files := files s;
                      queue := queue s; threads := threads s |}
          | MkdirRaised _ => Some s
          | Spawned w' fs' url out_dir =>
              Some {| widgets := w'; files := fs'; queue := queue s;
                      threads := threads s
                                 ++ [(_download_worker ydl sys fs' url out_dir).1] |}
          end
      end
  | do_worker =>
      match threads s with
      | (cb :: rest) :: post =>
          Some {| widgets := widgets s; files := files s;
                  queue := queue s ++ [cb];
                  threads := [] ++ advance rest ++ post |}
      | [] :: post =>
          Some {| widgets := widgets s; files := files s;
                  queue := queue s; threads := [] ++ post |}
      | [] => None
      end
  | do_loop =>
      match queue s with
      | cb :: q =>
          Some {| widgets := run_callback cb (widgets s); files := files s;
                  queue := q; threads := threads s |}
      | [] => None
      end
  end.

Fixpoint run (acts : list action) (s : state) : option state :=
  match acts with
  | [] => Some s
  | a :: acts' =>
      match exec a s with
      | Some s' => run acts' s'
      | None => None
      end
  end.

End Machine.

(** ** The format expression

    What [yt_dlp.YoutubeDL] does with a format expression.  Alternatives
    are separated by a slash and tried left to right; in an alternative,
    selectors are joined by a plus sign, each picks a format and the picks
    are merged; a selector is a name followed by filters in square
    brackets, and the filters are applied to the list before the name is.
    The names: [best] (or [b]) is the best format with both a video and an
    audio track, [bv*] the best with a video track, [ba] the best with
    audio only, [bv] the best with video only, [ba*] the best with an audio
    track, [b*] the best with any track.  When [best] finds no format with
    both tracks and the list of the video is incomplete (all its formats
    are video-only, or all are audio-only), it falls back on the best
    format with any track.  The merge keeps one video and one audio
    stream: a pick with a track that an earlier pick already has is
    dropped.  The list of formats is in yt_dlp's order, worst first.
    Selectors outside the best family (format ids, extensions, [worst],
    [all]) are not covered: an expression with one does not parse here. *)

Module Selector.

Record format := {
  format_id : string;
  ext : string;
  vcodec : string;
  acodec : string;
}.

Definition has_video (f : format) : bool := negb (String.eqb (vcodec f) "none").
Definition has_audio (f : format) : bool := negb (String.eqb (acodec f) "none").
Definition has_track (f : format) : bool := has_video f || has_audio f.

(** [incomplete_formats]: all formats are video-only, or all are
    audio-only. *)
Definition incomplete_formats (formats : list format) : bool :=
  forallb (λ f, has_video f && negb (has_audio f)) formats
  || forallb (λ f, negb (has_video f) && has_audio f) formats.

Record filter := { key : string; negated : bool; value : string }.
Record atom := { name : string; filters : list filter }.

(** [s.split(sep)] *)
Fixpoint split (sep : ascii) (s : string) : list string :=
  match s with
  | EmptyString => [""]
  | String c s' =>
      if Ascii.eqb c sep then "" :: split sep s'
      else match split sep s' with
           | h :: t => String c h :: t
           | [] => [String c ""]
           end
  end.

(** The text without its last character, when that is [c]. *)
Fixpoint chop (c : ascii) (s : string) : option string :=
  match s with
  | EmptyString => None
  | String a EmptyString => if Ascii.eqb a c then Some "" else None
  | String a s' => option_map (String a) (chop c s')
  end.

(** [key=value] or [key!=value] *)
Definition parse_filter (body : string) : option filter :=
  match split "=" body with
  | [k; v] =>
      match chop "!" k with
      | Some k' => Some {| key := k'; negated := true; value := v |}
      | None => Some {| key := k; negated := false; value := v |}
      end
  | _ => None
  end.

(** The names the model covers. *)
Definition known_name (n : string) : bool :=
  bool_decide (n ∈ ["best"; "b"; "bv*"; "bestvideo*"; "ba*"; "bestaudio*";
                    "bv"; "bestvideo"; "ba"; "bestaudio"; "b*"; "best*"]).

(** [name[filter][filter]...]; filters without a name stand for [best],
    and an empty selector is a syntax error. *)
Definition parse_atom (s : string) : option atom :=
  if String.eqb s "" then None
  else
    match split "[" s with
    | n :: segs =>
        fs ← mapM (λ seg, chop "]" seg ≫= parse_filter) segs;
        let n := if String.eqb n "" then "best" else n in
        if known_name n then Some {| name := n; filters := fs |} else None
    | [] => None
    end.

Definition parse (fmt : string) : option (list (list atom)) :=
  mapM (λ alt, mapM parse_atom (split "+" alt)) (split "/" fmt).

(** What a selector name asks of a format. *)
Definition name_ok (n : string) (f : format) : bool :=
  if decide (n = "best" ∨ n = "b") then has_video f && has_audio f
  else if decide (n = "bv*" ∨ n = "bestvideo*") then has_video f
  else if decide (n = "ba*" ∨ n = "bestaudio*") then has_audio f
  else if decide (n = "bv" ∨ n = "bestvideo") then has_video f && negb (has_audio f)
  else if decide (n = "ba" ∨ n = "bestaudio") then has_audio f && negb (has_video f)
  else if decide (n = "b*" ∨ n = "best*") then has_video f || has_audio f
  else false.

(** [format_fallback]: the plain [best] alone falls back. *)
Definition format_fallback (n : string) : bool :=
  bool_decide (n = "best" ∨ n = "b").

Definition field (k : string) (f : format) : option string :=
  if String.eqb k "ext" then Some (ext f)
  else if String.eqb k "vcodec" then Some (vcodec f)
  else if String.eqb k "acodec" then Some (acodec f)
  else if String.eqb k "format_id" then Some (format_id f)
  else None.

Definition filter_ok (f : format) (flt : filter) : bool :=
  match field (key flt) f with
  | Some v => xorb (negated flt) (String.eqb v (value flt))
  | None => false
  end.

(** The format passes all the filters of the selector. *)
Definition passes (a : atom) (f : format) : bool :=
  forallb (filter_ok f) (filters a).

(** A selector picks the best format, the last of the list, among those
    that pass its filters and that its name accepts; [incomplete] is
    [incomplete_formats] of the whole list of the video. *)
Definition select_atom (incomplete : bool) (formats : list format) (a : atom)
  : option format :=
  let formats := List.filter (passes a) formats in
  let matches := List.filter (name_ok (name a)) formats in
  let matches :=
    match matches with
    | [] =>
        if format_fallback (name a) && incomplete
        then List.filter has_track formats
        else []
    | _ => matches
    end in
  last matches.

(** One pass of the merge over the streams gathered so far: a stream with
    no track, or with a track already there, is removed; as the streams are
    removed from the list that is being walked, the stream after a removed
    one is not looked at. *)
Fixpoint reduce (skip got_audio got_video : bool) (streams : list format)
  : list format :=
  match streams with
  | [] => []
  | f :: rest =>
      if skip then f :: reduce false got_audio got_video rest
      else if negb (has_audio f) && negb (has_video f)
      then reduce true got_audio got_video rest
      else if has_audio f && got_audio
      then reduce true got_audio got_video rest
      else
        let got_audio := got_audio || has_audio f in
        if has_video f && got_video
        then reduce true got_audio got_video rest
        else f :: reduce false got_audio (got_video || has_video f) rest
  end.

(** The picks of an alternative, merged from left to right. *)
Definition merge_all (picks : list format) : list format :=
  match picks with
  | [] => []
  | p :: ps => fold_left (λ acc f, reduce false false false (acc ++ [f])) ps [p]
  end.

(** An alternative selects when each of its selectors does. *)
Definition select_alt (incomplete : bool) (formats : list format)
    (alt : list atom) : option (list format) :=
  option_map merge_all (mapM (select_atom incomplete formats) alt).

(** The first alternative that selects. *)
Fixpoint select_first (incomplete : bool) (formats : list format)
    (alts : list (list atom)) : option (list format) :=
  match alts with
  | [] => None
  | alt :: alts' =>
      match select_alt incomplete formats alt with
      | Some sel => Some sel
      | None => select_first incomplete formats alts'
      end
  end.

(** The streams downloaded for a video with these formats. *)
Definition select (formats : list format) (alts : list (list atom))
  : option (list format) :=
  select_first (incomplete_formats formats) formats alts.

(** What is downloaded has a picture and no sound. *)
Definition video_only (sel : list format) : bool :=
  existsb has_video sel && negb (existsb has_audio sel).

End Selector.

Definition audio_only (f : Selector.format) : bool :=
  Selector.has_audio f && negb (Selector.has_video f).
Definition silent (f : Selector.format) : bool :=
  Selector.has_video f && negb (Selector.has_audio f).

(** ** Executable instances

    [ascii_builtins]: [lower] and [strip] on ASCII text, [:.nf] exact for
    every float, [str] of a float printed with one decimal (exact for the
    floats of the examples).
    [list_os]: absolute paths as lists of components, a file system as the
    directories and the regular files it holds. *)

Module Concrete.

Definition lower_char (c : ascii) : ascii :=
  let n := nat_of_ascii c in
  if (65 <=? n)%nat && (n <=? 90)%nat then ascii_of_nat (n + 32) else c.

Fixpoint lower_ascii (s : string) : string :=
  match s with
  | EmptyString => EmptyString
  | String c s' => String (lower_char c) (lower_ascii s')
  end.

Definition is_space (c : ascii) : bool :=
  let n := nat_of_ascii c in
  ((9 <=? n)%nat && (n <=? 13)%nat) || ((28 <=? n)%nat && (n <=? 32)%nat).

Fixpoint lstrip (s : string) : string :=
  match s with
  | EmptyString => EmptyString
  | String c s' => if is_space c then lstrip s' else s
  end.

Fixpoint rstrip (s : string) : string :=
  match s with
  | EmptyString => EmptyString
  | String c s' =>
      let r := rstrip s' in
      if is_space c && String.eqb r "" then "" else String c r
  end.

Definition strip_ascii (s : string) : string := rstrip (lstrip s).

Fixpoint zeros (n : nat) : string :=
  match n with
  | O => ""
  | S n' => String "0" (zeros n')
  end.

Definition round_half_even (num den : Z) : Z :=
  let q := (num / den)%Z in
  let r := (num mod den)%Z in
  if (den <? 2 * r)%Z || ((2 * r =? den)%Z && Z.odd q) then (q + 1)%Z else q.

(** The decimal digits of [m * 2^e] with [n] places after the point. *)
Definition fixed_digits (n : nat) (m e : Z) : string :=
  let p := (10 ^ Z.of_nat n)%Z in
  let scaled :=
    if (0 <=? e)%Z then (m * 2 ^ e * p)%Z
    else round_half_even (m * p) (2 ^ (- e)) in
  let ds := Py.str_of_Z scaled in
  let ds := zeros (S n - String.length ds) +:+ ds in
  let k := (String.length ds - n)%nat in
  substring 0 k ds +:+
  match n with
  | O => ""
  | _ => "." +:+ substring k n ds
  end.

Definition format_fixed (n : nat) (f : float) : string :=
  match Prim2SF f with
  | S754_zero s => (if s then "-" else "") +:+ fixed_digits n 0 0
  | S754_infinity s => if s then "-inf" else "inf"
  | S754_nan => "nan"
  | S754_finite s m e => (if s then "-" else "") +:+ fixed_digits n (Z.pos m) e
  end.

#[export] Instance ascii_builtins : Builtins := {|
  lower := lower_ascii;
  strip := strip_ascii;
  strip_empty := eq_refl;
  format_float := format_fixed;
  str_float := format_fixed 1;
|}.

(** *** Paths as lists of components *)

Definition is_sep (c : ascii) : bool :=
  Ascii.eqb c "/" || Ascii.eqb c "\".

(** The components of a path text; empty components are dropped. *)
Fixpoint components (cur : string) (s : string) : list string :=
  match s with
  | EmptyString => if String.eqb cur "" then [] else [cur]
  | String c s' =>
      if is_sep c
      then (if String.eqb cur "" then [] else [cur]) ++ components "" s'
      else components (cur +:+ String c "") s'
  end.

Fixpoint render (p : list string) : string :=
  match p with
  | [] => ""
  | c :: p' => "/" +:+ c +:+ render p'
  end.

Definition show_path (p : list string) : string :=
  match p with
  | [] => "/"
  | _ => render p
  end.

Record fsys := { dirs : list (list string); regular : list (list string) }.

Definition inb (p : list string) (l : list (list string)) : bool :=
  bool_decide (p ∈ l).

(** The path and the directories above it, the path first. *)
Fixpoint ancestors (p : list string) (n : nat) : list (list string) :=
  match n with
  | O => []
  | S n' => p :: ancestors (removelast p) n'
  end.

Definition mkdir_p (fs : fsys) (p : list string) : Py.exn + fsys :=
  if inb p (dirs fs) then inr fs
  else if existsb (λ q, inb q (regular fs)) (ancestors p (S (length p)))
  then inl (Py.Raise (Py.OtherException "FileExistsError") (show_path p))
  else inr {| dirs := ancestors p (S (length p)) ++ dirs fs; regular := regular fs |}.

#[export, refine] Instance list_os : OS := {|
  Path := list string;
  mkPath := components "";
  joinpath := λ p n, p ++ [n];
  parent := λ p, removelast p;
  path_str := show_path;
  FS := fsys;
  resolve := λ _ p, p;
  exists_ := λ fs p, inb p (dirs fs) || inb p (regular fs);
  is_dir := λ fs p, inb p (dirs fs);
  mkdir_parents := mkdir_p;
  os_path_join := λ a b, a +:+ "/" +:+ b;
|}.
Proof.
  - intros [|c p]; cbn; discriminate.
  - intros fs p fs'. unfold mkdir_p, inb.
    destruct (bool_decide (p ∈ dirs fs)) eqn:E.
    + intros [= <-]. exact E.
    + destruct (existsb _ _); [discriminate|]. intros [= <-]. cbn.
      apply bool_decide_eq_true. set_solver.
  - intros fs p Hd. unfold mkdir_p. rewrite Hd. reflexivity.
Defined.

(** A packaged program in [/app] with the tools in [/app/ffmpeg]. *)
Definition sys_exe : Sys :=
  {| frozen := true; executable := "/app/yt.exe";
     __file__ := "/tmp/_MEI1/youtube_downloader.py";
     _MEIPASS := Some "/tmp/_MEI1" |}.

Definition fs_tools : fsys :=
  {| dirs := [["app"]; ["app"; "ffmpeg"]; ["tmp"; "_MEI1"]];
     regular := [["app"; "yt.exe"]; ["app"; "ffmpeg.exe"];
                 ["app"; "ffmpeg"; "ffmpeg.exe"];
                 ["app"; "ffmpeg"; "ffprobe.exe"];
                 ["tmp"; "_MEI1"; "ffprobe.exe"]] |}.

(** The program run from its script, no tools anywhere. *)
Definition sys_script : Sys :=
  {| frozen := false; executable := "/usr/bin/python3";
     __file__ := "/home/u/youtube_downloader.py"; _MEIPASS := None |}.

Definition fs_bare : fsys :=
  {| dirs := [["home"; "u"]];
     regular := [["home"; "u"; "youtube_downloader.py"]] |}.

(** The format list of a video: worst first. *)
Definition formats_demo : list Selector.format :=
  [ {| Selector.format_id := "139"; Selector.ext := "m4a";
       Selector.vcodec := "none"; Selector.acodec := "mp4a.40.5" |};
    {| Selector.format_id := "18"; Selector.ext := "mp4";
       Selector.vcodec := "avc1.42001E"; Selector.acodec := "mp4a.40.2" |};
    {| Selector.format_id := "137"; Selector.ext := "mp4";
       Selector.vcodec := "avc1.640028"; Selector.acodec := "none" |} ].

(** A run of the library: two progress events, a merge, then the title. *)
Definition run_ok : ydl_run :=
  {| ydl_events :=
       [ on_progress {[ "status" := Py.Str "downloading";
                        "downloaded_bytes" := Py.Int 50;
                        "total_bytes" := Py.Int 200 ]};
         on_progress {[ "status" := Py.Str "finished" ]};
         on_postprocess {[ "status" := Py.Str "started";
                           "postprocessor" := Py.Str "Merger" ]} ];
     ydl_result := inr (Some {[ "title" := Py.Str "clip" ]}) |}.

(** A run in which [extract_info] raises. *)
Definition run_raises (e : Py.exn) : ydl_run :=
  {| ydl_events := []; ydl_result := inl e |}.

End Concrete.

(** ** The folder dialog and the event loop *)

(** [pick_folder]; [folder] is what [filedialog.askdirectory] returned, the
    empty string when the dialog was cancelled. *)
Definition pick_folder (folder : string) (w : Widgets) : Widgets :=
  if truthy_str (Some folder) then set_out folder w else w.

(** The event loop runs the scheduled functions in the order they were
    scheduled. *)
Definition run_callbacks (q : list callback) (w : Widgets) : Widgets :=
  fold_left (λ w cb, run_callback cb w) q w.

(** A state after a worker died without [ui_done] or [ui_error]: the
    button disabled, no worker alive, nothing waiting that would enable the
    button. *)
Definition dead `{OS} (s : state) : bool :=
  match btn_download (widgets s), threads s, List.filter terminal (queue s) with
  | disabled, [], [] => true
  | _, _, _ => false
  end.

(** ** What the proofs keep track of *)

Definition nonterminal (cb : callback) : Prop := terminal cb = false.

(** A worker schedules [ui_done] or [ui_error] last, if at all. *)
Inductive script_ok : list callback → Prop :=
| script_nil : script_ok []
| script_last cb : script_ok [cb]
| script_cons cb rest :
    terminal cb = false → script_ok rest → script_ok (cb :: rest).

(** The scheduled functions that will enable the button again. *)
Definition count_terminal (q : list callback) : nat :=
  length (List.filter terminal q).

(** The invariant of the running program: a worker that is alive and a
    pending [ui_done] or [ui_error] exclude each other and there is at most
    one of them in all; while the button is enabled there is none. *)
Definition invariant `{OS} (s : state) : Prop :=
  (btn_download (widgets s) = normal →
   threads s = [] ∧ count_terminal (queue s) = 0)
  ∧ (length (threads s) + count_terminal (queue s) ≤ 1)%nat
  ∧ Forall script_ok (threads s).

(** * Properties *)

(** ** The URL validator *)

Lemma startswith_spec (p s : string) :
  startswith p s = true ↔ ∃ post, s = p +:+ post.
Proof.
  revert s. induction p as [|a p IH]; intros s; simpl.
  - split; [eauto | done].
  - destruct s as [|b s].
    + split; [done | intros [post Hp]; discriminate].
    + rewrite andb_true_iff, IH. split.
      * intros [Hab [post ->]]. apply Ascii.eqb_eq in Hab as ->. eauto.
      * intros [post [= -> ->]]. split; [apply Ascii.eqb_refl | eauto].
Qed.

Lemma str_in_spec (needle hay : string) :
  str_in needle hay = true ↔ contains hay needle.
Proof.
  unfold contains. induction hay as [|c hay IH].
  - simpl. rewrite orb_false_r, startswith_spec. split.
    + intros [post Hp]. exists "", post. done.
    + intros (pre & post & Hp). destruct pre; [eauto | discriminate].
  - cbn [str_in]. rewrite orb_true_iff, IH, startswith_spec. split.
    + intros [[post Hp] | (pre & post & ->)].
      * exists "", post. done.
      * exists (String c pre), post. done.
    + intros (pre & post & Hp). destruct pre as [|c' pre].
      * left. eauto.
      * right. injection Hp as -> ->. eauto.
Qed.

(** The validator on [None] and on the empty string sees the empty text. *)
Lemma is_youtube_url_None `{Builtins} :
  is_youtube_url None = is_youtube_url (Some "").
Proof. reflexivity. Qed.

(** C3. For every string [url], [is_youtube_url url] is true exactly when
    the lowercased url contains ["youtube.com"] or contains ["youtu.be"],
    and false for every other string. *)
Theorem is_youtube_url_iff `{Builtins} (url : string) :
  (is_youtube_url (Some url) = true
   ↔ contains (lower url) "youtube.com" ∨ contains (lower url) "youtu.be")
  ∧ (is_youtube_url (Some url) = false
     ↔ ¬ (contains (lower url) "youtube.com" ∨ contains (lower url) "youtu.be")).
Proof.
  assert (Hacc : is_youtube_url (Some url) = true
    ↔ contains (lower url) "youtube.com" ∨ contains (lower url) "youtu.be").
  { unfold is_youtube_url, or_empty. cbn [default].
    rewrite orb_true_iff, !str_in_spec. done. }
  split; [exact Hacc |].
  rewrite <- Hacc. destruct (is_youtube_url (Some url)); split; done.
Qed.

Example is_youtube_url_short_link :
  @is_youtube_url Concrete.ascii_builtins (Some "https://YouTu.be/abc123") = true.
Proof. reflexivity. Qed.

Example is_youtube_url_other_site :
  @is_youtube_url Concrete.ascii_builtins
    (Some "https://example.com/watch?v=abc123") = false.
Proof. reflexivity. Qed.

(** ** The muxer probe *)

Section ProbeFacts.
Context `{OS}.

Lemma first_with_tools_Some (fs : FS) (cs : list Path) (s : string) :
  first_with_tools fs cs = Some s →
  ∃ (i : nat) (c : Path),
    cs !! i = Some c ∧ s = path_str c ∧ has_tools fs c = true
    ∧ ∀ (j : nat) (c' : Path), j < i → cs !! j = Some c' → has_tools fs c' = false.
Proof.
  induction cs as [|c cs IH]; simpl; [done |].
  destruct (has_tools fs c) eqn:Hc.
  - intros [= <-]. exists 0, c. repeat split; try done. intros j c' Hj. lia.
  - intros Hs. destruct (IH Hs) as (i & c0 & Hi & -> & Ht & Hbefore).
    exists (S i), c0. repeat split; try done.
    intros [|j] c' Hj; simpl.
    + intros [= <-]. done.
    + apply Hbefore. lia.
Qed.

Lemma first_with_tools_None (fs : FS) (cs : list Path) :
  first_with_tools fs cs = None ↔ ∀ c, c ∈ cs → has_tools fs c = false.
Proof.
  induction cs as [|c cs IH]; simpl.
  - split; [intros _ c Hc; by apply elem_of_nil in Hc | done].
  - destruct (has_tools fs c) eqn:Hc.
    + split; [done |]. intros Hall. rewrite Hall in Hc; [done | by left].
    + rewrite IH. split.
      * intros Hall c' [-> | Hin]%elem_of_cons; auto.
      * intros Hall c' Hin. apply Hall. by right.
Qed.

(** Only a string that is not empty comes back, so the probe's result is
    true as a condition exactly when it is a location. *)
Lemma find_ffmpeg_folder_truthy (sys : Sys) (fs : FS) :
  truthy_str (find_ffmpeg_folder sys fs) = true
  ↔ is_Some (find_ffmpeg_folder sys fs).
Proof.
  destruct (find_ffmpeg_folder sys fs) as [s|] eqn:Hf; simpl.
  - split; [eauto | intros _].
    apply first_with_tools_Some in Hf as (i & c & _ & -> & _).
    apply negb_true_iff, String.eqb_neq, path_str_nonempty.
  - split; [done | by intros [? ?]].
Qed.

(** C2. The candidates are, in this order, the PyInstaller extraction
    directory when [sys] has one, the program's directory and its [ffmpeg]
    subfolder; [find_ffmpeg_folder] returns the first candidate that holds
    both [ffmpeg.exe] and [ffprobe.exe], and [None] when no candidate
    holds both. *)
Theorem find_ffmpeg_folder_first (sys : Sys) (fs : FS) :
  let base := app_base_dir sys fs in
  candidates sys fs
  = (if truthy_str (_MEIPASS sys) then [mkPath (or_empty (_MEIPASS sys))] else [])
    ++ [base; base // "ffmpeg"]
  ∧ (∀ c, has_tools fs c = true
          ↔ exists_ fs (c // "ffmpeg.exe") = true
            ∧ exists_ fs (c // "ffprobe.exe") = true)
  ∧ match find_ffmpeg_folder sys fs with
    | Some s =>
        ∃ (i : nat) (c : Path),
          candidates sys fs !! i = Some c ∧ s = path_str c
          ∧ has_tools fs c = true
          ∧ ∀ (j : nat) (c' : Path),
              j < i → candidates sys fs !! j = Some c' → has_tools fs c' = false
    | None => ∀ c, c ∈ candidates sys fs → has_tools fs c = false
    end.
Proof.
  intros base. split; [| split].
  - unfold candidates. destruct (truthy_str (_MEIPASS sys)); reflexivity.
  - intros c. unfold has_tools. apply andb_true_iff.
  - destruct (find_ffmpeg_folder sys fs) as [s|] eqn:Hf.
    + by apply first_with_tools_Some.
    + by apply first_with_tools_None.
Qed.

End ProbeFacts.

(** The extraction directory lacks [ffmpeg.exe], the program's directory
    lacks [ffprobe.exe]: the subfolder is the answer. *)
Example find_ffmpeg_folder_subfolder :
  @find_ffmpeg_folder Concrete.list_os Concrete.sys_exe Concrete.fs_tools
  = Some "/app/ffmpeg".
Proof. reflexivity. Qed.

Example find_ffmpeg_folder_nothing :
  @find_ffmpeg_folder Concrete.list_os Concrete.sys_script Concrete.fs_bare = None.
Proof. reflexivity. Qed.

(** ** The options dictionary *)

Section OptionsFacts.
Context `{Builtins} `{OS} {A : Type}.
Implicit Types (ui_update : float → string → A) (ui_note : string → A).
Implicit Types (sys : Sys) (fs : FS) (url out_dir : string).

(** The dictionary and the notes, by the outcome of the probe. *)
Lemma make_ydl_opts_found ui_update ui_note sys fs url out_dir loc :
  find_ffmpeg_folder sys fs = Some loc →
  (make_ydl_opts ui_update ui_note sys fs url out_dir).2 = [ui_note note_detected]
  ∧ (make_ydl_opts ui_update ui_note sys fs url out_dir).1 !! "format"
    = Some (OStr fmt_merge)
  ∧ (make_ydl_opts ui_update ui_note sys fs url out_dir).1 !! "ffmpeg_location"
    = Some (OStr loc)
  ∧ (make_ydl_opts ui_update ui_note sys fs url out_dir).1 !! "merge_output_format"
    = Some (OStr "mp4").
Proof.
  intros Hf. unfold make_ydl_opts.
  assert (Ht : truthy_str (find_ffmpeg_folder sys fs) = true).
  { apply find_ffmpeg_folder_truthy. rewrite Hf. eauto. }
  rewrite Ht, Hf. cbn [fst snd or_empty default]. by simplify_map_eq.
Qed.

Lemma make_ydl_opts_not_found ui_update ui_note sys fs url out_dir :
  find_ffmpeg_folder sys fs = None →
  (make_ydl_opts ui_update ui_note sys fs url out_dir).2 = [ui_note note_not_detected]
  ∧ (make_ydl_opts ui_update ui_note sys fs url out_dir).1 !! "format"
    = Some (OStr fmt_single)
  ∧ (make_ydl_opts ui_update ui_note sys fs url out_dir).1 !! "ffmpeg_location" = None
  ∧ (make_ydl_opts ui_update ui_note sys fs url out_dir).1 !! "merge_output_format"
    = None.
Proof.
  intros Hf. unfold make_ydl_opts. rewrite Hf. cbn [truthy_str fst snd].
  by simplify_map_eq.
Qed.

(** C5. The dictionary has the key [ffmpeg_location], and the key
    [merge_output_format] with the value ["mp4"], exactly when the probe
    returns a location; when it returns [None] the note "FFmpeg not
    detected: ..." is the one emitted and neither key is in the
    dictionary. *)
Theorem make_ydl_opts_muxer_keys ui_update ui_note sys fs url out_dir :
  let opts := (make_ydl_opts ui_update ui_note sys fs url out_dir).1 in
  let notes := (make_ydl_opts ui_update ui_note sys fs url out_dir).2 in
  (is_Some (opts !! "ffmpeg_location") ↔ is_Some (find_ffmpeg_folder sys fs))
  ∧ (opts !! "merge_output_format" = Some (OStr "mp4")
     ↔ is_Some (find_ffmpeg_folder sys fs))
  ∧ match find_ffmpeg_folder sys fs with
    | Some loc => opts !! "ffmpeg_location" = Some (OStr loc)
    | None =>
        notes = [ui_note note_not_detected]
        ∧ note_not_detected
          = "FFmpeg not detected: using single-file format (sound guaranteed, may be <=720p)."
        ∧ opts !! "ffmpeg_location" = None
        ∧ opts !! "merge_output_format" = None
    end.
Proof.
  intros opts notes. subst opts notes.
  destruct (find_ffmpeg_folder sys fs) as [loc|] eqn:Hf.
  - destruct (make_ydl_opts_found ui_update ui_note sys fs url out_dir loc Hf)
      as (_ & _ & Hl & Hm).
    rewrite Hl, Hm. repeat split; eauto.
  - destruct (make_ydl_opts_not_found ui_update ui_note sys fs url out_dir Hf)
      as (Hn & _ & Hl & Hm).
    rewrite Hl, Hm, Hn. repeat split; try done; by intros [? ?].
Qed.

(** C10. The [format] entry does not depend on the url or the output
    directory: two calls for which the probe agrees on whether there is a
    muxer put the same format expression in the dictionary, whatever
    their urls, output directories and callbacks. *)
Theorem format_independent_of_inputs
    ui_update1 ui_note1 sys1 fs1 url1 out_dir1
    ui_update2 ui_note2 sys2 fs2 url2 out_dir2 :
  (is_Some (find_ffmpeg_folder sys1 fs1) ↔ is_Some (find_ffmpeg_folder sys2 fs2)) →
  (make_ydl_opts ui_update1 ui_note1 sys1 fs1 url1 out_dir1).1 !! "format"
  = (make_ydl_opts ui_update2 ui_note2 sys2 fs2 url2 out_dir2).1 !! "format".
Proof.
  intros Hsame.
  destruct (find_ffmpeg_folder sys1 fs1) as [l1|] eqn:H1;
    destruct (find_ffmpeg_folder sys2 fs2) as [l2|] eqn:H2.
  - destruct (make_ydl_opts_found ui_update1 ui_note1 _ _ url1 out_dir1 _ H1)
      as (_ & -> & _).
    destruct (make_ydl_opts_found ui_update2 ui_note2 _ _ url2 out_dir2 _ H2)
      as (_ & -> & _).
    done.
  - destruct Hsame as [Hs _]. destruct Hs as [? ?]; [eauto | done].
  - destruct Hsame as [_ Hs]. destruct Hs as [? ?]; [eauto | done].
  - destruct (make_ydl_opts_not_found ui_update1 ui_note1 _ _ url1 out_dir1 H1)
      as (_ & -> & _).
    destruct (make_ydl_opts_not_found ui_update2 ui_note2 _ _ url2 out_dir2 H2)
      as (_ & -> & _).
    done.
Qed.

End OptionsFacts.

Lemma format_independent_of_inputs_witness :
  (make_ydl_opts (H := Concrete.ascii_builtins) (H0 := Concrete.list_os)
     ui_update ui_note Concrete.sys_exe Concrete.fs_tools
     "https://youtu.be/abc123" "/home/u/Downloads").1 !! "format"
  = (make_ydl_opts (H := Concrete.ascii_builtins) (H0 := Concrete.list_os)
       ui_update ui_note Concrete.sys_exe Concrete.fs_tools
       "https://www.youtube.com/watch?v=xyz" "/srv/media").1 !! "format".
Proof.
  apply format_independent_of_inputs.
  split; intros _; exists "/app/ffmpeg"; reflexivity.
Defined.

(** ** The format expression *)

Module SelectorFacts.
Import Selector.











Lemma silent_list_incomplete (formats : list format) :
  forallb silent formats = true → incomplete_formats formats = true.
Proof. unfold incomplete_formats. intros Hs. apply orb_true_iff. by left. Qed.

(** An incomplete list that is not all video-only is all audio-only. *)
Lemma incomplete_not_silent (formats : list format) (f : format) :
  incomplete_formats formats = true → f ∈ formats → silent f = false →
  ∀ g, g ∈ formats → audio_only g = true.
Proof.
  unfold incomplete_formats. intros Hinc Hf Hns g Hg.
  apply orb_true_iff in Hinc as [Hall | Hall]; rewrite forallb_forall in Hall.
  - apply list_elem_of_In in Hf. specialize (Hall f Hf). unfold silent in Hns.
    congruence.
  - apply list_elem_of_In in Hg. specialize (Hall g Hg). unfold audio_only.
    by destruct (has_video g), (has_audio g).
Qed.








Section Expression.
Context `{Builtins} `{OS} {A : Type}.

(** C1, on the code.  The claim fails at a video whose formats are all
    video-only.  Whatever the probe returns, the expression
    [make_ydl_opts] chooses ends with the plain [best]; on such a list the
    earlier alternatives select nothing, [best] falls back on the best
    format of the list, and the stream selected has a picture and no
    sound. *)
Theorem format_selects_video_only (ui_update : float → string → A)
    (ui_note : string → A) (sys : Sys) (fs : FS) (url out_dir : string) :
  let opts := (make_ydl_opts ui_update ui_note sys fs url out_dir).1 in
  let formats :=
    [ {| format_id := "137"; ext := "mp4";
         vcodec := "avc1.640028"; acodec := "none" |} ] in
  ∃ (fmt : string) (alts : list (list atom)),
    opts !! "format" = Some (OStr fmt)
    ∧ parse fmt = Some alts
    ∧ select formats alts = Some formats
    ∧ video_only formats = true.
Proof.
  intros opts formats. subst opts formats.
  destruct (find_ffmpeg_folder sys fs) as [loc |] eqn:Hf.
  - destruct (make_ydl_opts_found ui_update ui_note sys fs url out_dir loc Hf)
      as (_ & Hfmt & _).
    eexists _, _. split; [exact Hfmt |]. split; [reflexivity |].
    split; reflexivity.
  - destruct (make_ydl_opts_not_found ui_update ui_note sys fs url out_dir Hf)
      as (_ & Hfmt & _).
    eexists _, _. split; [exact Hfmt |]. split; [reflexivity |].
    split; reflexivity.
Qed.

End Expression.

(** A video with an audio-only, a complete and a video-only format: with a
    muxer the video-only mp4 and the m4a are merged, without one the
    complete format is taken. *)
Example select_merge_demo :
  (alts ← parse fmt_merge; select Concrete.formats_demo alts)
  = Some [ {| format_id := "137"; ext := "mp4";
              vcodec := "avc1.640028"; acodec := "none" |};
           {| format_id := "139"; ext := "m4a";
              vcodec := "none"; acodec := "mp4a.40.5" |} ].
Proof. reflexivity. Qed.

Example select_single_demo :
  (alts ← parse fmt_single; select Concrete.formats_demo alts)
  = Some [ {| format_id := "18"; ext := "mp4";
              vcodec := "avc1.42001E"; acodec := "mp4a.40.2" |} ].
Proof. reflexivity. Qed.

(** The video pick of the merge has sound: the audio-only stream is
    dropped and one stream is downloaded. *)
Example select_merge_drops_audio :
  (alts ← parse fmt_merge;
   select [ {| format_id := "139"; ext := "m4a";
               vcodec := "none"; acodec := "mp4a.40.5" |};
            {| format_id := "18"; ext := "mp4";
               vcodec := "avc1.42001E"; acodec := "mp4a.40.2" |} ] alts)
  = Some [ {| format_id := "18"; ext := "mp4";
              vcodec := "avc1.42001E"; acodec := "mp4a.40.2" |} ].
Proof. reflexivity. Qed.

(** An empty selector and a format id are outside the expressions read
    here. *)
Example parse_rejects :
  parse "+" = None ∧ parse "" = None ∧ parse "137" = None.
Proof. repeat split; reflexivity. Qed.

End SelectorFacts.

(** ** The progress hook *)

Section HookFacts.
Context `{Builtins} {A : Type}.
Implicit Types (ui_update : float → string → A) (d : gmap string Py.val).

Lemma or_truthy (a b : Py.val) : Py.truthy a = true → Py.or_ a b = a.
Proof. unfold Py.or_. by intros ->. Qed.

Lemma or_falsy (a b : Py.val) : Py.truthy a = false → Py.or_ a b = b.
Proof. unfold Py.or_. by intros ->. Qed.

(** The speed in megabytes: a float divided by the integer 1024. *)
Lemma truediv_float_1024 (s : float) :
  Py.truediv (Py.Float s) (Py.Int 1024) = inr (s / 1024)%float.
Proof. reflexivity. Qed.

(** A true division that raises [ZeroDivisionError] had a divisor that is
    false as a condition. *)
Lemma truediv_zero_division (a b : Py.val) (e : Py.exn) :
  Py.truediv a b = inl e → Py.exn_cls e = Py.ZeroDivisionError →
  Py.truthy b = false.
Proof.
  intros Hdiv Hcls.
  destruct a as [| ba | za | fa | sa], b as [| bb | zb | fb | sb];
    cbn [Py.truediv Py.as_int Py.as_float Py.is_zero Py.truthy] in *;
    unfold Py.float_of_Z, Py.int_true_div in Hdiv; cbv zeta in Hdiv;
    repeat match type of Hdiv with
           | context [if ?c then _ else _] => destruct c eqn:?
           end;
    simplify_eq/=; try done.
  all: try (destruct bb; done).
  all: try (destruct bb; simplify_eq/=; done).
  all: by rewrite ?negb_false_iff.
Qed.

(** After the percentage: the message is built and [ui_update] is called
    once, when the speed is a float or unknown. *)
Lemma progress_hook_downloading ui_update d (pct : float) :
  Py.eq_str (Py.get d "status") "downloading" = true →
  (if Py.truthy (Py.or_ (Py.or_ (Py.get d "total_bytes")
                                 (Py.get d "total_bytes_estimate")) (Py.Int 0))
   then do q <- Py.truediv (Py.or_ (Py.get d "downloaded_bytes") (Py.Int 0))
                  (Py.or_ (Py.or_ (Py.get d "total_bytes")
                                  (Py.get d "total_bytes_estimate")) (Py.Int 0));
        inr (q * 100)%float
   else inr 0%float) = inr pct →
  speed_ok d →
  ∃ msg, progress_hook ui_update d = inr [ui_update pct msg].
Proof.
  intros Hst Hpct Hspeed. unfold progress_hook. rewrite Hst. cbv zeta.
  rewrite Hpct. cbn [bind_exn].
  destruct Hspeed as [Hs | [s Hs]]; rewrite Hs.
  - cbn [bind_exn]. destruct (Py.get d "eta"); eauto.
  - destruct (Py.truthy (Py.Float s)).
    + rewrite truediv_float_1024. cbn [bind_exn].
      rewrite truediv_float_1024. cbn [bind_exn].
      destruct (Py.get d "eta"); eauto.
    + cbn [bind_exn]. destruct (Py.get d "eta"); eauto.
Qed.

(** C8. On the event with status ["downloading"], [downloaded_bytes] 50
    and [total_bytes] 200 the hook calls [ui_update] once, with exactly
    25.0 percent.  In general, when the total (the known size, else the
    estimate) is true as a condition, and so when [total_bytes] is a
    positive integer, the hook reports the quotient of the downloaded bytes
    by the total, times 100.0. *)
Theorem progress_hook_percent ui_update :
  (∃ msg,
     progress_hook ui_update
       {[ "status" := Py.Str "downloading";
          "downloaded_bytes" := Py.Int 50;
          "total_bytes" := Py.Int 200 ]}
     = inr [ui_update 25%float msg])
  ∧ (∀ d (total : Py.val) (q : float),
       Py.eq_str (Py.get d "status") "downloading" = true →
       total = Py.or_ (Py.or_ (Py.get d "total_bytes")
                              (Py.get d "total_bytes_estimate")) (Py.Int 0) →
       Py.truthy total = true →
       Py.truediv (Py.or_ (Py.get d "downloaded_bytes") (Py.Int 0)) total = inr q →
       speed_ok d →
       ∃ msg, progress_hook ui_update d = inr [ui_update (q * 100)%float msg])
  ∧ (∀ d (t dl : Z) (q : float),
       Py.eq_str (Py.get d "status") "downloading" = true →
       Py.get d "total_bytes" = Py.Int t → (0 < t)%Z →
       Py.get d "downloaded_bytes" = Py.Int dl →
       Py.int_true_div dl t = inr q →
       speed_ok d →
       ∃ msg, progress_hook ui_update d = inr [ui_update (q * 100)%float msg]).
Proof.
  assert (Hgen : ∀ d (total : Py.val) (q : float),
    Py.eq_str (Py.get d "status") "downloading" = true →
    total = Py.or_ (Py.or_ (Py.get d "total_bytes")
                           (Py.get d "total_bytes_estimate")) (Py.Int 0) →
    Py.truthy total = true →
    Py.truediv (Py.or_ (Py.get d "downloaded_bytes") (Py.Int 0)) total = inr q →
    speed_ok d →
    ∃ msg, progress_hook ui_update d = inr [ui_update (q * 100)%float msg]).
  { intros d total q Hst -> Ht Hq Hs.
    apply progress_hook_downloading; [done | | done].
    rewrite Ht, Hq. reflexivity. }
  split; [| split; [exact Hgen |]].
  - eexists. reflexivity.
  - intros d t dl q Hst Ht Hpos Hdl Hq Hs.
    assert (Htz : (t =? 0)%Z = false) by (apply Z.eqb_neq; lia).
    assert (Hor : ∀ b, Py.or_ (Py.Int t) b = Py.Int t).
    { intros b. apply or_truthy. cbn [Py.truthy]. by rewrite Htz. }
    apply (Hgen d (Py.Int t) q); try done.
    + by rewrite Ht, !Hor.
    + cbn [Py.truthy]. by rewrite Htz.
    + rewrite Hdl. unfold Py.truediv.
      destruct (dl =? 0)%Z eqn:Hd.
      * apply Z.eqb_eq in Hd as ->. cbn [Py.or_ Py.truthy Z.eqb negb Py.as_int].
        by rewrite Htz.
      * rewrite or_truthy by (cbn [Py.truthy]; by rewrite Hd). cbn [Py.as_int].
        by rewrite Htz.
Qed.

(** C9. On an event with status ["downloading"] whose [total_bytes] and
    [total_bytes_estimate] are both missing, [None] or zero (false as
    conditions), the hook reports 0.0 percent and divides nothing; and on
    no event at all does the hook raise [ZeroDivisionError]. *)
Theorem progress_hook_no_zero_division ui_update :
  (∀ d,
     Py.eq_str (Py.get d "status") "downloading" = true →
     Py.truthy (Py.get d "total_bytes") = false →
     Py.truthy (Py.get d "total_bytes_estimate") = false →
     speed_ok d →
     ∃ msg, progress_hook ui_update d = inr [ui_update 0%float msg])
  ∧ (∀ d (e : Py.exn),
       progress_hook ui_update d = inl e →
       Py.exn_cls e ≠ Py.ZeroDivisionError).
Proof.
  split.
  - intros d Hst Ht He Hs. apply progress_hook_downloading; [done | | done].
    unfold Py.or_. rewrite Ht, He. reflexivity.
  - intros d e. unfold progress_hook.
    destruct (Py.eq_str (Py.get d "status") "downloading");
      [| destruct (Py.eq_str (Py.get d "status") "finished"); done].
    cbv zeta.
    set (total := Py.or_ (Py.or_ (Py.get d "total_bytes")
                                 (Py.get d "total_bytes_estimate")) (Py.Int 0)).
    set (downloaded := Py.or_ (Py.get d "downloaded_bytes") (Py.Int 0)).
    destruct (Py.truthy total) eqn:Htotal.
    + destruct (Py.truediv downloaded total) as [e1 | q] eqn:Hq; cbn [bind_exn].
      * intros [= <-] Hcls.
        pose proof (truediv_zero_division _ _ _ Hq Hcls) as Hf. congruence.
      * destruct (Py.truthy (Py.get d "speed")); cbn [bind_exn]; [| done].
        destruct (Py.truediv (Py.get d "speed") (Py.Int 1024)) as [e1 | s1] eqn:H1;
          cbn [bind_exn].
        -- intros [= <-] Hcls.
           by pose proof (truediv_zero_division _ _ _ H1 Hcls).
        -- destruct (Py.truediv (Py.Float s1) (Py.Int 1024)) as [e2 | s2] eqn:H2;
             cbn [bind_exn]; [| done].
           intros [= <-] Hcls.
           by pose proof (truediv_zero_division _ _ _ H2 Hcls).
    + cbn [bind_exn].
      destruct (Py.truthy (Py.get d "speed")); cbn [bind_exn]; [| done].
      destruct (Py.truediv (Py.get d "speed") (Py.Int 1024)) as [e1 | s1] eqn:H1;
        cbn [bind_exn].
      * intros [= <-] Hcls.
        by pose proof (truediv_zero_division _ _ _ H1 Hcls).
      * destruct (Py.truediv (Py.Float s1) (Py.Int 1024)) as [e2 | s2] eqn:H2;
          cbn [bind_exn]; [| done].
        intros [= <-] Hcls.
        by pose proof (truediv_zero_division _ _ _ H2 Hcls).
Qed.

End HookFacts.

(** The event of the specification, with the instance's formatting. *)
Example progress_hook_quarter :
  progress_hook (H := Concrete.ascii_builtins) ui_update
    {[ "status" := Py.Str "downloading";
       "downloaded_bytes" := Py.Int 50;
       "total_bytes" := Py.Int 200 ]}
  = inr [cb_update 25%float "Downloading… 25.0%"].
Proof. reflexivity. Qed.

(** No total at all, and an estimate of zero. *)
Example progress_hook_no_total :
  progress_hook (H := Concrete.ascii_builtins) ui_update
    {[ "status" := Py.Str "downloading";
       "downloaded_bytes" := Py.Int 50;
       "total_bytes_estimate" := Py.Float 0 ]}
  = inr [cb_update 0%float "Downloading… 0.0%"].
Proof. reflexivity. Qed.

(** ** The worker *)

Section WorkerFacts.
Context `{Builtins} `{OS}.
Implicit Types (ydl : gmap string (optval callback) → string → ydl_run).
Implicit Types (sys : Sys) (fs : FS) (url out_dir : string).

(** What [ui_error]'s function does to the window. *)
Lemma run_ui_error (msg : string) (w : Widgets) :
  btn_download (run_callback (ui_error msg) w) = normal
  ∧ status_var (run_callback (ui_error msg) w) = "Failed."
  ∧ shown (run_callback (ui_error msg) w) = shown w ++ [("Download error", msg)].
Proof. done. Qed.

(** When [extract_info] raises and no hook did, the [try] block ends with
    that exception. *)
Lemma worker_body_raises ydl sys fs url out_dir (e : Py.exn) :
  (∀ opts, ydl_events (ydl opts url) = []) →
  (∀ opts, ydl_result (ydl opts url) = inl e) →
  ∃ q, worker_body ydl sys fs url out_dir = (q, inl e).
Proof.
  intros Hev Hres. unfold worker_body.
  destruct (make_ydl_opts ui_update ui_note sys fs url out_dir) as [opts notes].
  rewrite Hev, Hres. cbn [run_events]. eauto.
Qed.

(** C4, as the code has it. Every exception that is an instance of
    [Exception] and is raised in the [try] block of the worker (by the
    extraction, the download, the merge or a hook) is caught there: the
    worker returns, nothing leaves it, and the last function it schedules
    is [ui_error]'s with the exception's string, which enables the button
    again, sets the status to "Failed." and shows the string in a modal
    error box. *)
Theorem worker_catches_Exception ydl sys fs url out_dir
    (q : list callback) (e : Py.exn) :
  worker_body ydl sys fs url out_dir = (q, inl e) →
  Py.is_Exception e = true →
  _download_worker ydl sys fs url out_dir
  = (q ++ [ui_error (Py.exn_msg e)], None)
  ∧ ∀ w : Widgets,
      let w' := run_callback (ui_error (Py.exn_msg e)) w in
      btn_download w' = normal
      ∧ status_var w' = "Failed."
      ∧ shown w' = shown w ++ [("Download error", Py.exn_msg e)].
Proof.
  intros Hbody Hexc. split.
  - unfold _download_worker. by rewrite Hbody, Hexc.
  - intros w. apply run_ui_error.
Qed.

(** C7. [start_download] starts the worker only when the stripped url
    passes [is_youtube_url] and the stripped output directory is not empty
    (so the entry's text is not empty either).  A failed check shows a
    modal error and starts nothing.  When both pass, [mkdir] has run
    before the thread starts: the thread starts in a file system where the
    directory exists, unchanged if it existed already; and if [mkdir]
    raises, no thread starts. *)
Theorem start_download_checks (w : Widgets) fs :
  let url := strip (url_var w) in
  let out_dir := strip (out_var w) in
  (is_youtube_url (Some url) = false →
   start_download w fs
   = Rejected (showerror "Invalid input" "Please paste a valid YouTube URL." w))
  ∧ (is_youtube_url (Some url) = true → out_dir = "" →
     start_download w fs
     = Rejected (showerror "Invalid input" "Please choose an output folder." w))
  ∧ match start_download w fs with
    | Spawned w' fs' url' out_dir' =>
        url' = url ∧ out_dir' = out_dir
        ∧ is_youtube_url (Some url) = true
        ∧ out_dir ≠ "" ∧ out_var w ≠ ""
        ∧ mkdir_parents fs (mkPath out_dir) = inr fs'
        ∧ is_dir fs' (mkPath out_dir) = true
        ∧ (is_dir fs (mkPath out_dir) = true → fs' = fs)
        ∧ btn_download w' = disabled
        ∧ shown w' = shown w
    | Rejected w' =>
        (is_youtube_url (Some url) = false ∨ out_dir = "")
        ∧ ∃ msg, shown w' = shown w ++ [("Invalid input", msg)]
    | MkdirRaised e =>
        is_youtube_url (Some url) = true ∧ out_dir ≠ ""
        ∧ mkdir_parents fs (mkPath out_dir) = inl e
    end.
Proof.
  intros url out_dir. unfold start_download. fold url out_dir.
  destruct (is_youtube_url (Some url)) eqn:Hurl; cbn [negb].
  - destruct (String.eqb out_dir "") eqn:Hout; cbn [truthy_str negb].
    + apply String.eqb_eq in Hout. rewrite Hout. cbn [truthy_str String.eqb negb].
      split; [done |]. split; [done |]. split; [by right | eauto].
    + rewrite Hout. cbn [negb].
      apply String.eqb_neq in Hout.
      split; [done |]. split; [done |].
      destruct (mkdir_parents fs (mkPath out_dir)) as [e | fs'] eqn:Hmk.
      * done.
      * repeat split; try done.
        -- intros Hempty. apply Hout. unfold out_dir. rewrite Hempty.
           apply strip_empty.
        -- by eapply mkdir_parents_is_dir.
        -- intros Hd. apply mkdir_parents_exist_ok with (p := mkPath out_dir) in Hd.
           congruence.
  - split; [done |]. split; [done |]. split; [by left | eauto].
Qed.

End WorkerFacts.

(** [extract_info] raises yt_dlp's [DownloadError]: caught and shown. *)
Lemma worker_catches_Exception_witness :
  let e := Py.Raise (Py.OtherException "DownloadError") "ERROR: Video unavailable" in
  let q := [cb_note note_detected] in
  (@_download_worker Concrete.ascii_builtins Concrete.list_os
     (λ _ _, Concrete.run_raises e) Concrete.sys_exe Concrete.fs_tools
     "https://youtu.be/abc123" "/home/u/Downloads"
   = (q ++ [ui_error (Py.exn_msg e)], None))
  ∧ ∀ w : Widgets,
      let w' := run_callback (ui_error (Py.exn_msg e)) w in
      btn_download w' = normal
      ∧ status_var w' = "Failed."
      ∧ shown w' = shown w ++ [("Download error", Py.exn_msg e)].
Proof.
  exact (@worker_catches_Exception Concrete.ascii_builtins Concrete.list_os
           (λ _ _, Concrete.run_raises
                     (Py.Raise (Py.OtherException "DownloadError")
                               "ERROR: Video unavailable"))
           Concrete.sys_exe Concrete.fs_tools
           "https://youtu.be/abc123" "/home/u/Downloads"
           [cb_note note_detected]
           (Py.Raise (Py.OtherException "DownloadError") "ERROR: Video unavailable")
           eq_refl eq_refl).
Defined.

(** C4, as the claim has it ("every exception"), fails: [extract_info]
    raises [SystemExit], which is no instance of [Exception]; the [except]
    clause does not handle it, no [ui_error] is scheduled and the exception
    leaves the worker. *)
Lemma worker_lets_SystemExit_through :
  let e := Py.Raise Py.SystemExit "1" in
  @worker_body Concrete.ascii_builtins Concrete.list_os
    (λ _ _, Concrete.run_raises e) Concrete.sys_exe Concrete.fs_tools
    "https://youtu.be/abc123" "/home/u/Downloads"
  = ([cb_note note_detected], inl e)
  ∧ @_download_worker Concrete.ascii_builtins Concrete.list_os
      (λ _ _, Concrete.run_raises e) Concrete.sys_exe Concrete.fs_tools
      "https://youtu.be/abc123" "/home/u/Downloads"
    = ([cb_note note_detected], Some e).
Proof. split; reflexivity. Qed.

Example start_download_spawns :
  ∃ w' fs',
    @start_download Concrete.ascii_builtins Concrete.list_os
      (set_url "  https://youtu.be/abc123 " (App_init "/home/u/Downloads"))
      Concrete.fs_bare
    = Spawned w' fs' "https://youtu.be/abc123" "/home/u/Downloads"
    ∧ btn_download w' = disabled
    ∧ Concrete.inb ["home"; "u"; "Downloads"] (Concrete.dirs fs') = true.
Proof. eexists _, _. split; [reflexivity | split; reflexivity]. Qed.

Example start_download_rejects_blank_folder :
  @start_download Concrete.ascii_builtins Concrete.list_os
    (set_out "   " (set_url "https://youtu.be/abc123" (App_init "/home/u/Downloads")))
    Concrete.fs_bare
  = Rejected
      (showerror "Invalid input" "Please choose an output folder."
         (set_out "   " (set_url "https://youtu.be/abc123"
                           (App_init "/home/u/Downloads")))).
Proof. reflexivity. Qed.

(** ** One download at a time *)

Section MachineFacts.
Context `{Builtins} `{OS}.
Variable sys : Sys.

Lemma progress_hook_nonterminal (d : gmap string Py.val) (cbs : list callback) :
  progress_hook ui_update d = inr cbs → Forall nonterminal cbs.
Proof.
  unfold progress_hook.
  destruct (Py.eq_str (Py.get d "status") "downloading").
  - cbv zeta.
    destruct (if Py.truthy _ then _ else _) as [e | pct]; cbn [bind_exn]; [done |].
    destruct (if Py.truthy (Py.get d "speed") then _ else _) as [e | msg];
      cbn [bind_exn]; [done |].
    intros [= <-]. by repeat constructor.
  - destruct (Py.eq_str (Py.get d "status") "finished"); intros [= <-];
      by repeat constructor.
Qed.

Lemma postprocessor_hook_nonterminal (d : gmap string Py.val) (cbs : list callback) :
  postprocessor_hook ui_note d = inr cbs → Forall nonterminal cbs.
Proof.
  unfold postprocessor_hook. cbv zeta.
  destruct (Py.eq_str (Py.get d "status") "started");
    [| destruct (Py.eq_str (Py.get d "status") "finished")];
    intros [= <-]; by repeat constructor.
Qed.

Lemma call_hooks_nonterminal (hs : list (hook callback)) (d : gmap string Py.val) :
  Forall (λ h : hook callback, ∀ d cbs, h d = inr cbs → Forall nonterminal cbs) hs →
  Forall nonterminal (call_hooks hs d).1.
Proof.
  induction 1 as [|h hs Hh _ IH]; cbn [call_hooks]; [by constructor |].
  destruct (h d) as [e | cbs] eqn:Hhd; [by constructor |].
  destruct (call_hooks hs d) as [cbs' r]. cbn [fst] in *.
  apply Forall_app. split; [by eapply Hh | done].
Qed.

(** The hooks [make_ydl_opts] registers are its two closures. *)
Lemma make_ydl_opts_hooks (fs : FS) (url out_dir : string) :
  let opts := (make_ydl_opts ui_update ui_note sys fs url out_dir).1 in
  hooks_of opts "progress_hooks" = [progress_hook ui_update]
  ∧ hooks_of opts "postprocessor_hooks" = [postprocessor_hook ui_note]
  ∧ Forall nonterminal (make_ydl_opts ui_update ui_note sys fs url out_dir).2.
Proof.
  unfold make_ydl_opts, hooks_of.
  destruct (truthy_str (find_ffmpeg_folder sys fs)); cbn [fst snd];
    simplify_map_eq; repeat split; by repeat constructor.
Qed.

Lemma run_events_nonterminal (fs : FS) (url out_dir : string) (evs : list event) :
  Forall nonterminal
    (run_events (make_ydl_opts ui_update ui_note sys fs url out_dir).1 evs).1.
Proof.
  destruct (make_ydl_opts_hooks fs url out_dir) as (Hp & Hq & _).
  induction evs as [|ev evs IH]; cbn [run_events]; [by constructor |].
  assert (Hfire : Forall nonterminal
    (fire (make_ydl_opts ui_update ui_note sys fs url out_dir).1 ev).1).
  { destruct ev as [d | d]; cbn [fire]; [rewrite Hp | rewrite Hq];
      apply call_hooks_nonterminal; repeat constructor.
    - apply progress_hook_nonterminal.
    - apply postprocessor_hook_nonterminal. }
  destruct (fire _ ev) as [cbs [e|]]; [done |].
  destruct (run_events _ evs) as [cbs' r]. cbn [fst] in *.
  apply Forall_app. done.
Qed.

Lemma script_ok_nonterminal (l : list callback) :
  Forall nonterminal l → script_ok l.
Proof. induction 1; by constructor. Qed.

Lemma script_ok_snoc (l : list callback) (cb : callback) :
  Forall nonterminal l → script_ok (l ++ [cb]).
Proof. induction 1; cbn; by constructor. Qed.

(** The worker schedules notes and progress, and last of all, unless an
    exception leaves it, [ui_done] or [ui_error]. *)
Lemma worker_script_ok ydl (fs : FS) (url out_dir : string) :
  script_ok (_download_worker ydl sys fs url out_dir).1.
Proof.
  unfold _download_worker, worker_body.
  pose proof (run_events_nonterminal fs url out_dir) as Hev.
  destruct (make_ydl_opts_hooks fs url out_dir) as (_ & _ & Hnotes).
  destruct (make_ydl_opts ui_update ui_note sys fs url out_dir) as [opts notes].
  cbn [fst snd] in *.
  specialize (Hev (ydl_events (ydl opts url))).
  destruct (run_events opts (ydl_events (ydl opts url))) as [cbs [e|]];
    cbn [fst] in Hev.
  - destruct (Py.is_Exception e); cbn [fst].
    + apply script_ok_snoc, Forall_app. done.
    + apply script_ok_nonterminal, Forall_app. done.
  - destruct (ydl_result (ydl opts url)) as [e | info].
    + destruct (Py.is_Exception e); cbn [fst].
      * apply script_ok_snoc, Forall_app. done.
      * apply script_ok_nonterminal, Forall_app. done.
    + cbn [fst]. rewrite app_assoc. apply script_ok_snoc, Forall_app. done.
Qed.

Lemma script_ok_cons_inv (cb : callback) (rest : list callback) :
  script_ok (cb :: rest) → rest = [] ∨ (terminal cb = false ∧ script_ok rest).
Proof. inversion 1; subst; auto. Qed.

Lemma count_terminal_app (q1 q2 : list callback) :
  count_terminal (q1 ++ q2) = count_terminal q1 + count_terminal q2.
Proof. unfold count_terminal. by rewrite List.filter_app, length_app. Qed.

Lemma initial_invariant (downloads : string) (fs : FS) :
  invariant (initial downloads fs).
Proof. repeat split; cbn; auto. Qed.

Lemma start_download_spawned (w : Widgets) (fs : FS) w' fs' url out_dir :
  start_download w fs = Spawned w' fs' url out_dir → btn_download w' = disabled.
Proof.
  unfold start_download.
  destruct (negb (is_youtube_url _)); [done |].
  destruct (negb (truthy_str _)); [done |].
  destruct (mkdir_parents _ _); [done |]. by intros [= <- _ _ _].
Qed.

Lemma start_download_rejected (w : Widgets) (fs : FS) w' :
  start_download w fs = Rejected w' → btn_download w' = btn_download w.
Proof.
  unfold start_download.
  destruct (negb (is_youtube_url _)); [by intros [= <-] |].
  destruct (negb (truthy_str _)); [by intros [= <-] |].
  destruct (mkdir_parents _ _); done.
Qed.

Lemma run_callback_btn (cb : callback) (w : Widgets) :
  btn_download (run_callback cb w)
  = if terminal cb then normal else btn_download w.
Proof. by destruct cb. Qed.

Lemma step_invariant (s s' : state) :
  step sys s s' → invariant s → invariant s'.
Proof.
  intros Hstep (Hbtn & Hone & Hok).
  destruct Hstep as [s text | s text | s w' Hn Hrej | s e Hn Hraised
                     | s w' fs' url out_dir ydl Hn Hsp
                     | s pre cb rest post Hth | s pre post Hth | s cb q Hq];
    unfold invariant; cbn [widgets files queue threads].
  - done.
  - done.
  - rewrite (start_download_rejected _ _ _ Hrej). done.
  - done.
  - destruct (Hbtn Hn) as [Hnil Hzero]. rewrite Hnil, Hzero.
    rewrite (start_download_spawned _ _ _ _ _ _ Hsp).
    split; [done |]. split; [cbn; lia |].
    repeat constructor. apply worker_script_ok.
  - rewrite Hth in Hone, Hok, Hbtn. rewrite length_app in Hone. cbn in Hone.
    assert (pre = []) as -> by (destruct pre; [done | cbn in Hone; lia]).
    assert (post = []) as -> by (destruct post; [done | cbn in Hone; lia]).
    assert (Hzero : count_terminal (queue s) = 0) by (cbn in Hone; lia).
    cbn [app] in *. apply (proj1 (Forall_singleton _ _)) in Hok.
    rewrite count_terminal_app, Hzero, app_nil_r.
    split; [intros Hnorm; by destruct (Hbtn Hnorm) |].
    destruct (script_ok_cons_inv _ _ Hok) as [-> | [Hcb Hrest]].
    + cbn [advance]. split; [| by constructor].
      unfold count_terminal. cbn. destruct (terminal cb); cbn; lia.
    + destruct rest as [|cb1 rest]; cbn [advance].
      * split; [| by constructor].
        unfold count_terminal. cbn. rewrite Hcb. cbn. lia.
      * split; [| apply Forall_singleton; exact Hrest].
        unfold count_terminal. cbn. rewrite Hcb. cbn. lia.
  - rewrite Hth in Hone, Hok, Hbtn. rewrite length_app in Hone. cbn in Hone.
    split; [intros Hnorm; destruct (Hbtn Hnorm) as [Hnil _]; by destruct pre |].
    split; [rewrite length_app; lia |].
    apply Forall_app in Hok as [Hpre Hpost]. apply Forall_cons in Hpost as [_ Hpost].
    by apply Forall_app.
  - rewrite Hq in Hone, Hbtn. rewrite run_callback_btn.
    unfold count_terminal in *. cbn [List.filter] in *.
    destruct (terminal cb) eqn:Hcb; cbn [length] in *.
    + assert (threads s = []) as Hnil by (destruct (threads s); [done | cbn in Hone; lia]).
      split; [intros _; split; [done | lia] |].
      split; [rewrite Hnil; cbn; lia | done].
    + done.
Qed.

Lemma reachable_invariant (downloads : string) (fs : FS) (s : state) :
  reachable sys downloads fs s → invariant s.
Proof.
  unfold reachable. intros Hr.
  apply rtc_ind_r with (x := initial downloads fs) (P := invariant) in Hr; auto.
  - apply initial_invariant.
  - intros y z _ Hstep Hy. by eapply step_invariant.
Qed.

(** C6. [start_download] leaves the button disabled when it starts the
    worker; running a scheduled function enables a disabled button only if
    the function is [ui_done]'s or [ui_error]'s; and in every state the
    program can reach at most one download is running, none while the
    button is enabled, and none while a [ui_done] or [ui_error] function is
    still waiting to run. *)
Theorem one_download_at_a_time :
  (∀ (w : Widgets) (fs : FS) w' fs' url out_dir,
     start_download w fs = Spawned w' fs' url out_dir →
     btn_download w' = disabled)
  ∧ (∀ (cb : callback) (w : Widgets),
       btn_download w = disabled →
       btn_download (run_callback cb w) = normal →
       (∃ msg, cb = cb_done msg) ∨ (∃ msg, cb = cb_error msg))
  ∧ (∀ (downloads : string) (fs : FS) (s : state),
       reachable sys downloads fs s →
       (length (threads s) ≤ 1)%nat
       ∧ (btn_download (widgets s) = normal → threads s = [])
       ∧ (∀ cb, cb ∈ queue s → terminal cb = true → threads s = [])).
Proof.
  split; [| split].
  - apply start_download_spawned.
  - intros cb w Hd. rewrite run_callback_btn.
    destruct cb; cbn [terminal]; try congruence; eauto.
  - intros downloads fs s Hr.
    destruct (reachable_invariant _ _ _ Hr) as (Hbtn & Hone & _).
    split; [lia |]. split; [intros Hn; by destruct (Hbtn Hn) |].
    intros cb Hin Hcb.
    assert (0 < count_terminal (queue s)).
    { unfold count_terminal.
      assert (Hf : In cb (List.filter terminal (queue s))).
      { apply filter_In. split; [by apply list_elem_of_In | done]. }
      destruct (List.filter terminal (queue s)); [done | cbn; lia]. }
    destruct (threads s); [done | cbn in Hone; lia].
Qed.

End MachineFacts.

(** ** Running a schedule *)

Section ScheduleFacts.
Context `{Builtins} `{OS}.
Variable sys : Sys.

Lemma exec_step (a : action) (s s' : state) :
  exec sys a s = Some s' → step sys s s'.
Proof.
  destruct a as [text | text | ydl | |]; cbn [exec].
  - intros [= <-]. constructor.
  - intros [= <-]. constructor.
  - destruct (btn_download (widgets s)) eqn:Hb; [| done].
    destruct (start_download (widgets s) (files s)) as [w' | e | w' fs' u o] eqn:Hs;
      intros [= <-].
    + by apply step_click_rejected.
    + by eapply step_click_raised.
    + by apply step_click_spawned.
  - destruct (threads s) as [| [| cb rest] post] eqn:Ht; [done | |]; intros [= <-].
    + by apply (step_worker_exit sys s []).
    + by apply (step_worker sys s []).
  - destruct (queue s) as [| cb q] eqn:Hq; [done |]. intros [= <-].
    by apply step_loop.
Qed.

Lemma run_rtc (acts : list action) (s s' : state) :
  run sys acts s = Some s' → rtc (step sys) s s'.
Proof.
  revert s. induction acts as [| a acts IH]; intros s; cbn [run].
  - intros [= <-]. apply rtc_refl.
  - destruct (exec sys a s) as [s1|] eqn:He; [| done].
    intros Hr. eapply rtc_l; [exact (exec_step a s s1 He) | by apply IH].
Qed.

End ScheduleFacts.

(** A whole download in the packaged program: the url is typed, the button
    clicked, the worker schedules its five functions while the event loop
    runs them; at the end the button is enabled again. *)
Example download_runs_and_ends :
  ∃ s : state,
    @reachable Concrete.ascii_builtins Concrete.list_os Concrete.sys_exe
      "/home/u/Downloads" Concrete.fs_tools s
    ∧ threads s = [] ∧ queue s = []
    ∧ btn_download (widgets s) = normal
    ∧ status_var (widgets s) = "Done: clip"
    ∧ note_var (widgets s) = "Post-processing started: Merger…".
Proof.
  destruct (@run Concrete.ascii_builtins Concrete.list_os Concrete.sys_exe
              [ do_edit_url "https://youtu.be/abc123";
                do_click (λ _ _, Concrete.run_ok);
                do_worker; do_worker; do_loop; do_loop;
                do_worker; do_worker; do_worker; do_loop; do_loop; do_loop ]
              (@initial Concrete.list_os "/home/u/Downloads" Concrete.fs_tools))
    as [s|] eqn:Hrun; [| by vm_compute in Hrun].
  exists s. split; [exact (run_rtc _ _ _ _ Hrun) |].
  vm_compute in Hrun. injection Hrun as <-. repeat split; reflexivity.
Qed.

(** While the worker is alive the button is disabled, and a click is not
    delivered. *)
Example download_running :
  ∃ s : state,
    @reachable Concrete.ascii_builtins Concrete.list_os Concrete.sys_exe
      "/home/u/Downloads" Concrete.fs_tools s
    ∧ length (threads s) = 1
    ∧ btn_download (widgets s) = disabled
    ∧ status_var (widgets s) = "Starting…"
    ∧ @exec Concrete.ascii_builtins Concrete.list_os Concrete.sys_exe
        (do_click (λ _ _, Concrete.run_ok)) s = None.
Proof.
  destruct (@run Concrete.ascii_builtins Concrete.list_os Concrete.sys_exe
              [ do_edit_url "https://youtu.be/abc123";
                do_click (λ _ _, Concrete.run_ok) ]
              (@initial Concrete.list_os "/home/u/Downloads" Concrete.fs_tools))
    as [s|] eqn:Hrun; [| by vm_compute in Hrun].
  exists s. split; [exact (run_rtc _ _ _ _ Hrun) |].
  vm_compute in Hrun. injection Hrun as <-. repeat split; reflexivity.
Qed.

(** * Further properties of the hooks *)

Section MoreHookFacts.
Context `{Builtins} {A : Type}.
Implicit Types (ui_update : float → string → A) (ui_note : string → A).
Implicit Types (d : gmap string Py.val).

(** A true division raises nothing but instances of [Exception]. *)
Lemma truediv_raises_Exception (a b : Py.val) (e : Py.exn) :
  Py.truediv a b = inl e → Py.is_Exception e = true.
Proof.
  intros Hdiv.
  destruct a as [| ba | za | fa | sa], b as [| bb | zb | fb | sb];
    cbn [Py.truediv Py.as_int Py.as_float Py.is_zero] in Hdiv;
    unfold Py.float_of_Z, Py.int_true_div in Hdiv; cbv zeta in Hdiv;
    repeat match type of Hdiv with
           | context [if ?c then _ else _] => destruct c eqn:?
           end;
    by simplify_eq/=.
Qed.

(** X1. [postprocessor_hook] never raises; it calls [ui_note] at most once,
    and not at all unless the status is ["started"] or ["finished"]. *)
Theorem postprocessor_hook_total ui_note d :
  ∃ acts : list A,
    postprocessor_hook ui_note d = inr acts
    ∧ (length acts ≤ 1)%nat
    ∧ (acts = []
       ↔ Py.eq_str (Py.get d "status") "started" = false
         ∧ Py.eq_str (Py.get d "status") "finished" = false).
Proof.
  unfold postprocessor_hook. cbv zeta.
  destruct (Py.eq_str (Py.get d "status") "started");
    [| destruct (Py.eq_str (Py.get d "status") "finished")];
    eexists; (split; [reflexivity |]); cbn; split; try lia;
    split; try done; by intros [? ?].
Qed.

(** X2. On ["started"], the note names the postprocessor; when the key
    [postprocessor] is missing, [None] or an empty string the note says
    "processing" in its place. *)
Theorem postprocessor_hook_name ui_note d :
  Py.eq_str (Py.get d "status") "started" = true →
  (Py.truthy (Py.get_default d "postprocessor" (Py.Str "")) = false →
   postprocessor_hook ui_note d
   = inr [ui_note "Post-processing started: processing…"])
  ∧ (∀ n : string, d !! "postprocessor" = Some (Py.Str n) → n ≠ "" →
     postprocessor_hook ui_note d
     = inr [ui_note ("Post-processing started: " +:+ n +:+ "…")]).
Proof.
  intros Hst. unfold postprocessor_hook. rewrite Hst. cbv zeta. split.
  - intros Hf. by rewrite or_falsy.
  - intros n Hn Hne. unfold Py.get_default. rewrite Hn. cbn [default].
    rewrite or_truthy; [done |]. cbn [Py.truthy].
    by apply negb_true_iff, String.eqb_neq.
Qed.

(** X3. [progress_hook] calls [ui_update] at most once and nothing else.
    On ["finished"] it reports 100.0 percent whatever else the event
    carries, and on any status other than ["downloading"] and
    ["finished"] it does nothing; in neither case can it raise. *)
Theorem progress_hook_shape ui_update d :
  (∀ acts : list A, progress_hook ui_update d = inr acts →
     acts = [] ∨ ∃ pct msg, acts = [ui_update pct msg])
  ∧ (Py.eq_str (Py.get d "status") "downloading" = false →
     progress_hook ui_update d
     = inr (if Py.eq_str (Py.get d "status") "finished"
            then [ui_update 100%float "Download finished. Processing/merging…"]
            else [])).
Proof.
  split.
  - intros acts. unfold progress_hook.
    destruct (Py.eq_str (Py.get d "status") "downloading").
    + cbv zeta.
      destruct (if Py.truthy _ then _ else _) as [e | pct]; cbn [bind_exn]; [done |].
      destruct (if Py.truthy (Py.get d "speed") then _ else _) as [e | msg];
        cbn [bind_exn]; [done |].
      intros [= <-]. eauto.
    + destruct (Py.eq_str (Py.get d "status") "finished"); intros [= <-]; eauto.
  - intros Hst. unfold progress_hook. rewrite Hst.
    by destruct (Py.eq_str (Py.get d "status") "finished").
Qed.

(** X4. When [total_bytes] is missing, [None] or zero, the hook falls back
    on [total_bytes_estimate]: with a float estimate that is not zero it
    reports the downloaded bytes, as a float, divided by the estimate,
    times 100.0. *)
Theorem progress_hook_estimate ui_update d (t fdl : float) (dl : Z) :
  Py.eq_str (Py.get d "status") "downloading" = true →
  Py.truthy (Py.get d "total_bytes") = false →
  Py.get d "total_bytes_estimate" = Py.Float t →
  (t =? 0)%float = false →
  Py.get d "downloaded_bytes" = Py.Int dl →
  Py.float_of_Z dl = inr fdl →
  speed_ok d →
  ∃ msg, progress_hook ui_update d = inr [ui_update (fdl / t * 100)%float msg].
Proof.
  intros Hst Htb He Ht Hdl Hf Hs.
  apply progress_hook_downloading; [done | | done].
  assert (Htr : Py.truthy (Py.Float t) = true) by (cbn [Py.truthy]; by rewrite Ht).
  rewrite (or_falsy _ _ Htb), He, (or_truthy _ _ Htr), Htr, Hdl.
  assert (Hdiv : Py.truediv (Py.or_ (Py.Int dl) (Py.Int 0)) (Py.Float t)
                 = inr (fdl / t)%float).
  { unfold Py.or_. cbn [Py.truthy].
    destruct (dl =? 0)%Z eqn:Hz; cbn [negb].
    - apply Z.eqb_eq in Hz as ->.
      unfold Py.truediv. cbn [Py.as_int Py.as_float Py.is_zero].
      by rewrite Hf, Ht.
    - unfold Py.truediv. cbn [Py.as_int Py.as_float Py.is_zero].
      by rewrite Hf, Ht. }
  by rewrite Hdiv.
Qed.

(** The quotient of zero by a positive integer is the float zero. *)
Lemma int_true_div_zero (t : Z) : (0 < t)%Z → Py.int_true_div 0 t = inr 0%float.
Proof.
  intros Ht. unfold Py.int_true_div. cbv zeta.
  rewrite Z.abs_0, Z.mul_0_l, Zdiv_0_l, Zmod_0_l.
  assert (Hneg : (t <? 0)%Z = false) by (apply Z.ltb_ge; lia).
  rewrite Hneg. reflexivity.
Qed.

(** X5. Before anything is downloaded ([downloaded_bytes] missing, [None]
    or zero) and with a positive integer [total_bytes], the hook reports
    0.0 percent. *)
Theorem progress_hook_nothing_yet ui_update d (t : Z) :
  Py.eq_str (Py.get d "status") "downloading" = true →
  Py.get d "total_bytes" = Py.Int t → (0 < t)%Z →
  Py.truthy (Py.get d "downloaded_bytes") = false →
  speed_ok d →
  ∃ msg, progress_hook ui_update d = inr [ui_update 0%float msg].
Proof.
  intros Hst Htb Ht Hdl Hs.
  apply progress_hook_downloading; [done | | done].
  assert (Htz : (t =? 0)%Z = false) by (apply Z.eqb_neq; lia).
  assert (Htr : Py.truthy (Py.Int t) = true) by (cbn [Py.truthy]; by rewrite Htz).
  rewrite Htb, !(or_truthy _ _ Htr), Htr, (or_falsy _ _ Hdl).
  unfold Py.truediv. cbn [Py.as_int]. rewrite Htz, (int_true_div_zero t Ht).
  reflexivity.
Qed.

(** Whatever the progress hook raises is an instance of [Exception]. *)
Lemma progress_hook_raises_Exception ui_update d (e : Py.exn) :
  progress_hook ui_update d = inl e → Py.is_Exception e = true.
Proof.
  unfold progress_hook.
  destruct (Py.eq_str (Py.get d "status") "downloading");
    [| destruct (Py.eq_str (Py.get d "status") "finished"); done].
  cbv zeta.
  destruct (Py.truthy (Py.or_ _ _)).
  - destruct (Py.truediv (Py.or_ _ _) _) as [e1 | q] eqn:Hq; cbn [bind_exn].
    + intros [= <-]. by eapply truediv_raises_Exception.
    + destruct (Py.truthy (Py.get d "speed")); cbn [bind_exn]; [| done].
      destruct (Py.truediv (Py.get d "speed") _) as [e1 | s1] eqn:H1; cbn [bind_exn].
      * intros [= <-]. by eapply truediv_raises_Exception.
      * destruct (Py.truediv (Py.Float s1) _) as [e2 | s2] eqn:H2;
          cbn [bind_exn]; [| done].
        intros [= <-]. by eapply truediv_raises_Exception.
  - cbn [bind_exn].
    destruct (Py.truthy (Py.get d "speed")); cbn [bind_exn]; [| done].
    destruct (Py.truediv (Py.get d "speed") _) as [e1 | s1] eqn:H1; cbn [bind_exn].
    + intros [= <-]. by eapply truediv_raises_Exception.
    + destruct (Py.truediv (Py.Float s1) _) as [e2 | s2] eqn:H2;
        cbn [bind_exn]; [| done].
      intros [= <-]. by eapply truediv_raises_Exception.
Qed.

Lemma postprocessor_hook_never_raises ui_note d (e : Py.exn) :
  postprocessor_hook ui_note d ≠ inl e.
Proof.
  unfold postprocessor_hook. cbv zeta.
  destruct (Py.eq_str (Py.get d "status") "started");
    [| destruct (Py.eq_str (Py.get d "status") "finished")]; done.
Qed.

End MoreHookFacts.

(** What [progress_hook] raises was raised by a division whose divisor is
    true as a condition. *)
Lemma progress_hook_raise_source `{Builtins} {A : Type}
    (ui_update : float → string → A) (d : gmap string Py.val) (e : Py.exn) :
  progress_hook ui_update d = inl e →
  ∃ a b, Py.truediv a b = inl e ∧ Py.truthy b = true.
Proof.
  unfold progress_hook.
  destruct (Py.eq_str (Py.get d "status") "downloading");
    [| destruct (Py.eq_str (Py.get d "status") "finished"); done].
  cbv zeta. intros He.
  destruct (Py.truthy (Py.or_ _ _)) eqn:Htotal.
  - destruct (Py.truediv (Py.or_ _ _) _) as [e1 | q] eqn:Hq; cbn [bind_exn] in He.
    + injection He as <-. eauto.
    + destruct (Py.truthy (Py.get d "speed")); cbn [bind_exn] in He; [| done].
      destruct (Py.truediv (Py.get d "speed") _) as [e1 | s1] eqn:H1;
        cbn [bind_exn] in He.
      * injection He as <-. eauto.
      * destruct (Py.truediv (Py.Float s1) _) as [e2 | s2] eqn:H2;
          cbn [bind_exn] in He; [| done].
        injection He as <-. eauto.
  - cbn [bind_exn] in He.
    destruct (Py.truthy (Py.get d "speed")); cbn [bind_exn] in He; [| done].
    destruct (Py.truediv (Py.get d "speed") _) as [e1 | s1] eqn:H1;
      cbn [bind_exn] in He.
    + injection He as <-. eauto.
    + destruct (Py.truediv (Py.Float s1) _) as [e2 | s2] eqn:H2;
        cbn [bind_exn] in He; [| done].
      injection He as <-. eauto.
Qed.

(** The three exceptions of a true division. *)
Lemma truediv_exn_class (a b : Py.val) (e : Py.exn) :
  Py.truediv a b = inl e →
  Py.exn_cls e = Py.ZeroDivisionError ∨ Py.exn_cls e = Py.TypeError
  ∨ Py.exn_cls e = Py.OverflowError.
Proof.
  intros Hdiv.
  destruct a as [| ba | za | fa | sa], b as [| bb | zb | fb | sb];
    cbn [Py.truediv Py.as_int Py.as_float Py.is_zero] in Hdiv;
    unfold Py.float_of_Z, Py.int_true_div in Hdiv; cbv zeta in Hdiv;
    repeat match type of Hdiv with
           | context [if ?c then _ else _] => destruct c eqn:?
           end;
    simplify_eq/=; auto.
Qed.

(** X6. Neither hook can raise anything but an instance of [Exception]:
    [postprocessor_hook] raises nothing at all, and what [progress_hook]
    raises comes from a division, a [TypeError] or an [OverflowError]. *)
Theorem hooks_raise_only_Exception `{Builtins} {A : Type}
    (ui_update : float → string → A) (ui_note : string → A)
    (d : gmap string Py.val) :
  (∀ e, postprocessor_hook ui_note d ≠ inl e)
  ∧ (∀ e, progress_hook ui_update d = inl e →
       Py.is_Exception e = true
       ∧ (Py.exn_cls e = Py.TypeError ∨ Py.exn_cls e = Py.OverflowError)).
Proof.
  split; [apply postprocessor_hook_never_raises |].
  intros e He. split; [by eapply progress_hook_raises_Exception |].
  apply progress_hook_raise_source in He as (a & b & Hdiv & Hb).
  destruct (truediv_exn_class a b e Hdiv) as [Hz | Hc]; [| done].
  pose proof (truediv_zero_division a b e Hdiv Hz). congruence.
Qed.

(** A progress event whose total is a string: the division raises
    [TypeError]. *)
Example progress_hook_type_error :
  progress_hook (H := Concrete.ascii_builtins) ui_update
    {[ "status" := Py.Str "downloading";
       "downloaded_bytes" := Py.Int 50;
       "total_bytes" := Py.Str "200" ]}
  = inl (Py.Raise Py.TypeError "unsupported operand type(s) for /").
Proof. reflexivity. Qed.

Lemma progress_hook_estimate_witness :
  ∃ msg,
    progress_hook (H := Concrete.ascii_builtins) ui_update
      {[ "status" := Py.Str "downloading";
         "downloaded_bytes" := Py.Int 50;
         "total_bytes_estimate" := Py.Float 200 ]}
    = inr [ui_update (50 / 200 * 100)%float msg].
Proof.
  apply (progress_hook_estimate (H := Concrete.ascii_builtins) ui_update
           {[ "status" := Py.Str "downloading";
              "downloaded_bytes" := Py.Int 50;
              "total_bytes_estimate" := Py.Float 200 ]} 200%float 50%float 50);
    try reflexivity.
  left. reflexivity.
Defined.

Lemma progress_hook_nothing_yet_witness :
  ∃ msg,
    progress_hook (H := Concrete.ascii_builtins) ui_update
      {[ "status" := Py.Str "downloading"; "total_bytes" := Py.Int 200 ]}
    = inr [ui_update 0%float msg].
Proof.
  apply (progress_hook_nothing_yet (H := Concrete.ascii_builtins) ui_update
           {[ "status" := Py.Str "downloading"; "total_bytes" := Py.Int 200 ]} 200);
    try reflexivity.
  left. reflexivity.
Defined.

Lemma postprocessor_hook_name_witness :
  (Py.truthy (Py.get_default
                ({[ "status" := Py.Str "started" ]} : gmap string Py.val)
                "postprocessor" (Py.Str "")) = false →
   postprocessor_hook (H := Concrete.ascii_builtins) ui_note
     {[ "status" := Py.Str "started" ]}
   = inr [ui_note "Post-processing started: processing…"])
  ∧ (∀ n : string,
       ({[ "status" := Py.Str "started" ]} : gmap string Py.val) !! "postprocessor"
       = Some (Py.Str n) → n ≠ "" →
       postprocessor_hook (H := Concrete.ascii_builtins) ui_note
         {[ "status" := Py.Str "started" ]}
       = inr [ui_note ("Post-processing started: " +:+ n +:+ "…")]).
Proof.
  apply (postprocessor_hook_name (H := Concrete.ascii_builtins) ui_note
           {[ "status" := Py.Str "started" ]}).
  reflexivity.
Defined.

(** * Further properties of the worker *)

Section MoreWorkerFacts.
Context `{Builtins} `{OS}.
Implicit Types (ydl : gmap string (optval callback) → string → ydl_run).
Implicit Types (sys : Sys) (fs : FS) (url out_dir : string).

Lemma call_hooks_raises (hs : list (hook callback)) (d : gmap string Py.val)
    (cbs : list callback) (e : Py.exn) :
  Forall (λ h : hook callback, ∀ d e, h d = inl e → Py.is_Exception e = true) hs →
  call_hooks hs d = (cbs, Some e) → Py.is_Exception e = true.
Proof.
  intros Hall. revert cbs.
  induction Hall as [| h hs Hh _ IH]; intros cbs; cbn [call_hooks]; [done |].
  destruct (h d) as [e' | cbs1] eqn:Hhd.
  - intros [= _ <-]. by eapply Hh.
  - destruct (call_hooks hs d) as [cbs' r]. intros [= _ ->]. by eapply IH.
Qed.

(** An exception that ends the events of a run was raised by a hook, and
    is an instance of [Exception]. *)
Lemma run_events_raises sys fs url out_dir (evs : list event)
    (cbs : list callback) (e : Py.exn) :
  run_events (make_ydl_opts ui_update ui_note sys fs url out_dir).1 evs
  = (cbs, Some e) →
  Py.is_Exception e = true.
Proof.
  destruct (make_ydl_opts_hooks sys fs url out_dir) as (Hp & Hq & _).
  revert cbs. induction evs as [| ev evs IH]; intros cbs; cbn [run_events]; [done |].
  destruct (fire _ ev) as [cbs1 [e1 |]] eqn:Hfire.
  - intros [= _ <-]. destruct ev as [d | d]; cbn [fire] in Hfire.
    + rewrite Hp in Hfire. eapply call_hooks_raises; [| exact Hfire].
      repeat constructor. intros d' e'. apply progress_hook_raises_Exception.
    + rewrite Hq in Hfire. eapply call_hooks_raises; [| exact Hfire].
      repeat constructor. intros d' e' He'.
      by apply postprocessor_hook_never_raises in He'.
  - destruct (run_events _ evs) as [cbs' r] eqn:Hrest. intros [= _ ->].
    by eapply IH.
Qed.

(** When the [try] block ends with an exception, all it has scheduled are
    notes and progress. *)
Lemma worker_body_raised_nonterminal ydl sys fs url out_dir
    (q : list callback) (e : Py.exn) :
  worker_body ydl sys fs url out_dir = (q, inl e) → Forall nonterminal q.
Proof.
  unfold worker_body.
  pose proof (run_events_nonterminal sys fs url out_dir) as Hev.
  destruct (make_ydl_opts_hooks sys fs url out_dir) as (_ & _ & Hnotes).
  destruct (make_ydl_opts ui_update ui_note sys fs url out_dir) as [opts notes].
  cbn [fst snd] in *.
  specialize (Hev (ydl_events (ydl opts url))).
  destruct (run_events opts (ydl_events (ydl opts url))) as [cbs [e1 |]];
    cbn [fst] in Hev.
  - intros [= <- _]. by apply Forall_app.
  - destruct (ydl_result (ydl opts url)) as [e1 | info]; [| done].
    intros [= <- _]. by apply Forall_app.
Qed.

Lemma run_callbacks_snoc (q : list callback) (cb : callback) (w : Widgets) :
  run_callbacks (q ++ [cb]) w = run_callback cb (run_callbacks q w).
Proof. unfold run_callbacks. by rewrite fold_left_app. Qed.

(** Notes and progress leave the button, the boxes and the two entries
    alone. *)
Lemma run_callbacks_nonterminal (q : list callback) (w : Widgets) :
  Forall nonterminal q →
  btn_download (run_callbacks q w) = btn_download w
  ∧ shown (run_callbacks q w) = shown w
  ∧ url_var (run_callbacks q w) = url_var w
  ∧ out_var (run_callbacks q w) = out_var w.
Proof.
  intros Hq. revert w. induction Hq as [| cb q Hcb _ IH]; intros w; [done |].
  change (run_callbacks (cb :: q) w) with (run_callbacks q (run_callback cb w)).
  destruct (IH (run_callback cb w)) as (-> & -> & -> & ->).
  destruct cb; done.
Qed.

(** X7. An exception leaves the worker only if [extract_info] itself raised
    it and it is no instance of [Exception]: what a hook raises never
    leaves the worker. *)
Theorem worker_escape_is_library_exception ydl sys fs url out_dir (e : Py.exn) :
  (_download_worker ydl sys fs url out_dir).2 = Some e →
  Py.is_Exception e = false
  ∧ ydl_result (ydl (make_ydl_opts ui_update ui_note sys fs url out_dir).1 url)
    = inl e.
Proof.
  unfold _download_worker, worker_body.
  pose proof (run_events_raises sys fs url out_dir) as Hev.
  destruct (make_ydl_opts ui_update ui_note sys fs url out_dir) as [opts notes].
  cbn [fst] in *.
  specialize (Hev (ydl_events (ydl opts url))).
  destruct (run_events opts (ydl_events (ydl opts url))) as [cbs [e1 |]].
  - rewrite (Hev cbs e1 eq_refl). done.
  - destruct (ydl_result (ydl opts url)) as [e1 | info]; [| done].
    destruct (Py.is_Exception e1) eqn:Hexc; [done |].
    intros [= <-]. done.
Qed.

(** X8. When no hook raises and [extract_info] returns, the worker ends
    with [ui_done] and lets nothing out; the title shown is "Done" when
    [info] is [None] or has no [title].  Once the event loop has run all
    the worker scheduled, the button is enabled, the bar is at 100.0, the
    status is the "Done: ..." message and no error box has been shown. *)
Theorem worker_success ydl sys fs url out_dir (cbs : list callback)
    (info : option (gmap string Py.val)) :
  let opts := (make_ydl_opts ui_update ui_note sys fs url out_dir).1 in
  let title := Py.get_default (default ∅ info) "title" (Py.Str "Done") in
  run_events opts (ydl_events (ydl opts url)) = (cbs, None) →
  ydl_result (ydl opts url) = inr info →
  (_download_worker ydl sys fs url out_dir).2 = None
  ∧ last (_download_worker ydl sys fs url out_dir).1
    = Some (ui_done ("Done: " +:+ py_str title))
  ∧ (info ≫= (.!! "title") = None → py_str title = "Done")
  ∧ ∀ w : Widgets,
      let w' := run_callbacks (_download_worker ydl sys fs url out_dir).1 w in
      btn_download w' = normal
      ∧ progress_var w' = 100%float
      ∧ status_var w' = "Done: " +:+ py_str title
      ∧ shown w' = shown w.
Proof.
  intros opts title Hev Hres. subst opts.
  pose proof (run_events_nonterminal sys fs url out_dir
                (ydl_events (ydl (make_ydl_opts ui_update ui_note sys fs url out_dir).1 url)))
    as Hnt.
  destruct (make_ydl_opts_hooks sys fs url out_dir) as (_ & _ & Hnotes).
  unfold _download_worker, worker_body.
  destruct (make_ydl_opts ui_update ui_note sys fs url out_dir) as [opts notes].
  cbn [fst snd] in *. rewrite Hev in Hnt |- *. rewrite Hres. cbn [fst snd] in *.
  fold title. rewrite app_assoc.
  split; [done |]. split; [by rewrite last_snoc |]. split.
  - intros Hmiss. unfold title, Py.get_default.
    destruct info as [dinfo |]; cbn in Hmiss |- *.
    + by rewrite Hmiss.
    + by rewrite lookup_empty.
  - intros w. cbv zeta. rewrite run_callbacks_snoc.
    assert (Hpre : Forall nonterminal (notes ++ cbs)) by by apply Forall_app.
    destruct (run_callbacks_nonterminal (notes ++ cbs) w Hpre) as (_ & Hsh & _).
    cbn. done.
Qed.

(** X9. When the [try] block raises an instance of [Exception], the event
    loop, once it has run all the worker scheduled, has shown exactly one
    more box, "Download error" with the exception's string, the status is
    "Failed." and the button is enabled. *)
Theorem worker_failure_window ydl sys fs url out_dir (q : list callback)
    (e : Py.exn) (w : Widgets) :
  worker_body ydl sys fs url out_dir = (q, inl e) →
  Py.is_Exception e = true →
  let w' := run_callbacks (_download_worker ydl sys fs url out_dir).1 w in
  btn_download w' = normal
  ∧ status_var w' = "Failed."
  ∧ shown w' = shown w ++ [("Download error", Py.exn_msg e)].
Proof.
  intros Hbody Hexc. cbv zeta.
  pose proof (worker_body_raised_nonterminal _ _ _ _ _ _ _ Hbody) as Hq.
  unfold _download_worker. rewrite Hbody, Hexc. cbn [fst].
  rewrite run_callbacks_snoc.
  destruct (run_callbacks_nonterminal q w Hq) as (_ & Hsh & _).
  cbn. by rewrite Hsh.
Qed.

(** X10. The first function the worker schedules is the note on FFmpeg,
    and it schedules [ui_done] or [ui_error] exactly once, unless an
    exception leaves it, and then not at all. *)
Theorem worker_script_shape ydl sys fs url out_dir :
  (∃ rest,
     (_download_worker ydl sys fs url out_dir).1
     = ui_note (match find_ffmpeg_folder sys fs with
                | Some _ => note_detected
                | None => note_not_detected
                end) :: rest)
  ∧ count_terminal (_download_worker ydl sys fs url out_dir).1
    = match (_download_worker ydl sys fs url out_dir).2 with
      | None => 1
      | Some _ => 0
      end.
Proof.
  assert (Hnote : (make_ydl_opts ui_update ui_note sys fs url out_dir).2
    = [ui_note (match find_ffmpeg_folder sys fs with
                | Some _ => note_detected
                | None => note_not_detected
                end)]).
  { destruct (find_ffmpeg_folder sys fs) as [loc |] eqn:Hf.
    - by destruct (make_ydl_opts_found ui_update ui_note sys fs url out_dir loc Hf).
    - by destruct (make_ydl_opts_not_found ui_update ui_note sys fs url out_dir Hf). }
  assert (Hzero : ∀ l, Forall nonterminal l → count_terminal l = 0).
  { induction 1 as [| cb l Hcb _ IH]; [done |].
    unfold count_terminal in *. cbn. unfold nonterminal in Hcb. by rewrite Hcb. }
  assert (Hnote1 : ∀ m l, count_terminal (ui_note m :: l) = count_terminal l)
    by done.
  pose proof (run_events_nonterminal sys fs url out_dir) as Hev.
  unfold _download_worker, worker_body.
  destruct (make_ydl_opts ui_update ui_note sys fs url out_dir) as [opts notes].
  cbn [fst snd] in *. subst notes.
  specialize (Hev (ydl_events (ydl opts url))).
  destruct (run_events opts (ydl_events (ydl opts url))) as [cbs [e |]];
    cbn [fst] in Hev.
  - destruct (Py.is_Exception e); cbn [fst snd].
    + split; [eauto |]. cbn [app]. rewrite Hnote1, count_terminal_app, (Hzero _ Hev).
      done.
    + split; [eauto |]. cbn [app]. by rewrite Hnote1, (Hzero _ Hev).
  - destruct (ydl_result (ydl opts url)) as [e | info].
    + destruct (Py.is_Exception e); cbn [fst snd].
      * split; [eauto |]. cbn [app].
        rewrite Hnote1, count_terminal_app, (Hzero _ Hev). done.
      * split; [eauto |]. cbn [app]. by rewrite Hnote1, (Hzero _ Hev).
    + cbn [fst snd]. split; [eauto |]. cbn [app].
      rewrite Hnote1, count_terminal_app, (Hzero _ Hev). done.
Qed.

End MoreWorkerFacts.

Lemma worker_escape_is_library_exception_witness :
  let e := Py.Raise Py.SystemExit "1" in
  Py.is_Exception e = false
  ∧ ydl_result
      ((λ _ _, Concrete.run_raises e)
         (make_ydl_opts (H := Concrete.ascii_builtins) (H0 := Concrete.list_os)
            ui_update ui_note Concrete.sys_exe Concrete.fs_tools
            "https://youtu.be/abc123" "/home/u/Downloads").1
         "https://youtu.be/abc123")
    = inl e.
Proof.
  exact (@worker_escape_is_library_exception
           Concrete.ascii_builtins Concrete.list_os
           (λ _ _, Concrete.run_raises (Py.Raise Py.SystemExit "1"))
           Concrete.sys_exe Concrete.fs_tools
           "https://youtu.be/abc123" "/home/u/Downloads"
           (Py.Raise Py.SystemExit "1") eq_refl).
Defined.

Lemma worker_success_witness :
  let worker :=
    @_download_worker Concrete.ascii_builtins Concrete.list_os
      (λ _ _, Concrete.run_ok) Concrete.sys_script Concrete.fs_bare
      "https://youtu.be/abc123" "/home/u/Downloads" in
  worker.2 = None
  ∧ last worker.1 = Some (ui_done "Done: clip")
  ∧ ∀ w : Widgets,
      btn_download (run_callbacks worker.1 w) = normal
      ∧ progress_var (run_callbacks worker.1 w) = 100%float
      ∧ status_var (run_callbacks worker.1 w) = "Done: clip"
      ∧ shown (run_callbacks worker.1 w) = shown w.
Proof.
  destruct (@worker_success Concrete.ascii_builtins Concrete.list_os
              (λ _ _, Concrete.run_ok) Concrete.sys_script Concrete.fs_bare
              "https://youtu.be/abc123" "/home/u/Downloads"
              [cb_update 25%float "Downloading… 25.0%";
               cb_update 100%float "Download finished. Processing/merging…";
               cb_note "Post-processing started: Merger…"]
              (Some {[ "title" := Py.Str "clip" ]}))
    as (Hout & Hlast & _ & Hwin).
  - vm_compute. reflexivity.
  - reflexivity.
  - split; [exact Hout |]. split; [exact Hlast |]. exact Hwin.
Defined.

Lemma worker_failure_window_witness :
  let e := Py.Raise (Py.OtherException "DownloadError") "ERROR: Video unavailable" in
  let w := App_init "/home/u/Downloads" in
  let w' :=
    run_callbacks
      (@_download_worker Concrete.ascii_builtins Concrete.list_os
         (λ _ _, Concrete.run_raises e) Concrete.sys_exe Concrete.fs_tools
         "https://youtu.be/abc123" "/home/u/Downloads").1 w in
  btn_download w' = normal
  ∧ status_var w' = "Failed."
  ∧ shown w' = shown w ++ [("Download error", Py.exn_msg e)].
Proof.
  exact (@worker_failure_window Concrete.ascii_builtins Concrete.list_os
           (λ _ _, Concrete.run_raises
                     (Py.Raise (Py.OtherException "DownloadError")
                               "ERROR: Video unavailable"))
           Concrete.sys_exe Concrete.fs_tools
           "https://youtu.be/abc123" "/home/u/Downloads"
           [cb_note note_detected]
           (Py.Raise (Py.OtherException "DownloadError") "ERROR: Video unavailable")
           (App_init "/home/u/Downloads") eq_refl eq_refl).
Defined.

(** * Further properties of the options and the folder dialog *)

Section MoreOptionsFacts.
Context `{Builtins} `{OS} {A : Type}.
Implicit Types (ui_update : float → string → A) (ui_note : string → A).
Implicit Types (sys : Sys) (fs : FS) (url out_dir : string).

(** X11. Of the inputs [url] and [out_dir], the dictionary and the notes
    use only [out_dir], and only in the output template [outtmpl]: every
    other entry is the same for any two urls and output directories. *)
Theorem make_ydl_opts_inputs ui_update ui_note sys fs url1 out_dir1 url2 out_dir2 :
  (make_ydl_opts ui_update ui_note sys fs url1 out_dir1).2
  = (make_ydl_opts ui_update ui_note sys fs url2 out_dir2).2
  ∧ (∀ k : string, k ≠ "outtmpl" →
       (make_ydl_opts ui_update ui_note sys fs url1 out_dir1).1 !! k
       = (make_ydl_opts ui_update ui_note sys fs url2 out_dir2).1 !! k)
  ∧ (make_ydl_opts ui_update ui_note sys fs url1 out_dir1).1 !! "outtmpl"
    = Some (OStr (os_path_join out_dir1 "%(title)s [%(id)s].%(ext)s")).
Proof.
  unfold make_ydl_opts.
  destruct (truthy_str (find_ffmpeg_folder sys fs)); cbn [fst snd].
  - split; [done |]. split; [| by simplify_map_eq].
    intros k Hk. rewrite !lookup_insert. repeat case_decide; congruence.
  - split; [done |]. split; [| by simplify_map_eq].
    intros k Hk. rewrite !lookup_insert. repeat case_decide; congruence.
Qed.

(** X12. Cancelling the folder dialog changes nothing; choosing a folder
    replaces the output folder and nothing else.  So the dialog never
    empties an output folder that was not empty. *)
Theorem pick_folder_keeps (folder : string) (w : Widgets) :
  pick_folder "" w = w
  ∧ (folder ≠ "" → out_var (pick_folder folder w) = folder)
  ∧ (out_var w ≠ "" → out_var (pick_folder folder w) ≠ "")
  ∧ url_var (pick_folder folder w) = url_var w
  ∧ btn_download (pick_folder folder w) = btn_download w
  ∧ shown (pick_folder folder w) = shown w.
Proof.
  unfold pick_folder. cbn [truthy_str].
  destruct (String.eqb folder "") eqn:Hf; cbn [negb].
  - repeat split; try done. apply String.eqb_eq in Hf. by intros ?.
  - apply String.eqb_neq in Hf. repeat split; done.
Qed.

(** X13. The probe never returns the empty string: what it returns is
    [str] of one of its candidates.  So the two tests of its result in
    [make_ydl_opts], written as truth tests, are tests for [None]. *)
Theorem find_ffmpeg_folder_nonempty sys fs :
  (∀ loc, find_ffmpeg_folder sys fs = Some loc →
     loc ≠ "" ∧ ∃ c, c ∈ candidates sys fs ∧ loc = path_str c)
  ∧ truthy_str (find_ffmpeg_folder sys fs)
    = bool_decide (is_Some (find_ffmpeg_folder sys fs)).
Proof.
  split.
  - intros loc Hf. unfold find_ffmpeg_folder in Hf.
    apply first_with_tools_Some in Hf as (i & c & Hi & -> & _).
    split; [apply path_str_nonempty |].
    exists c. split; [by eapply list_elem_of_lookup_2 | done].
  - pose proof (find_ffmpeg_folder_truthy sys fs) as Ht.
    destruct (truthy_str (find_ffmpeg_folder sys fs)) eqn:E.
    + symmetry. apply bool_decide_eq_true. by apply Ht.
    + symmetry. apply bool_decide_eq_false. intros Hs. apply Ht in Hs. congruence.
Qed.

End MoreOptionsFacts.

(** X14. With a [lower] that maps the empty string to itself, [None] and
    the empty string are rejected. *)
Theorem is_youtube_url_empty `{Builtins} :
  lower "" = "" →
  is_youtube_url None = false ∧ is_youtube_url (Some "") = false.
Proof.
  intros Hl. unfold is_youtube_url.
  change (or_empty None) with "". change (or_empty (Some "")) with "".
  rewrite Hl. split; reflexivity.
Qed.

Lemma is_youtube_url_empty_witness :
  @is_youtube_url Concrete.ascii_builtins None = false
  ∧ @is_youtube_url Concrete.ascii_builtins (Some "") = false.
Proof. exact (@is_youtube_url_empty Concrete.ascii_builtins eq_refl). Defined.

(** * Further properties of the running program *)

Section MoreMachineFacts.
Context `{Builtins} `{OS}.
Variable sys : Sys.

(** The button after the event loop has run a list of functions. *)
Lemma run_callbacks_btn (q : list callback) (w : Widgets) :
  btn_download (run_callbacks q w)
  = if existsb terminal q then normal else btn_download w.
Proof.
  revert w. induction q as [| cb q IH]; intros w; [done |].
  change (run_callbacks (cb :: q) w) with (run_callbacks q (run_callback cb w)).
  rewrite IH, run_callback_btn. cbn [existsb].
  by destruct (terminal cb), (existsb terminal q).
Qed.

(** The event loop alone empties its queue. *)
Lemma loop_drains_queue (q : list callback) (s : state) :
  queue s = q →
  rtc (step sys) s
    {| widgets := run_callbacks q (widgets s); files := files s;
       queue := []; threads := threads s |}.
Proof.
  revert s. induction q as [| cb q IH]; intros s Hq.
  - destruct s as [w f q0 t]. cbn in *. subst. apply rtc_refl.
  - eapply rtc_l; [by apply step_loop |].
    apply (IH {| widgets := run_callback cb (widgets s); files := files s;
                 queue := q; threads := threads s |}).
    reflexivity.
Qed.

(** X15. Once a worker has scheduled [ui_done] or [ui_error], the event
    loop by itself brings the program back to idle: from any reachable
    state with such a function waiting, it can run until its queue is
    empty, and then no worker is alive and the button is enabled.  In
    general the button after a batch of scheduled functions is enabled if
    one of them is [ui_done]'s or [ui_error]'s, and as before otherwise. *)
Theorem loop_returns_to_idle :
  (∀ (q : list callback) (w : Widgets),
     btn_download (run_callbacks q w)
     = if existsb terminal q then normal else btn_download w)
  ∧ (∀ (downloads : string) (fs : FS) (s : state),
       reachable sys downloads fs s →
       (∃ cb, cb ∈ queue s ∧ terminal cb = true) →
       ∃ s', rtc (step sys) s s'
             ∧ queue s' = [] ∧ threads s' = []
             ∧ btn_download (widgets s') = normal
             ∧ widgets s' = run_callbacks (queue s) (widgets s)).
Proof.
  split; [apply run_callbacks_btn |].
  intros downloads fs s Hr (cb & Hin & Hcb).
  destruct (reachable_invariant sys _ _ _ Hr) as (_ & Hone & _).
  assert (Hex : existsb terminal (queue s) = true).
  { apply existsb_exists. exists cb. split; [by apply list_elem_of_In | done]. }
  assert (Hpos : 0 < count_terminal (queue s)).
  { unfold count_terminal.
    assert (Hf : In cb (List.filter terminal (queue s))).
    { apply filter_In. split; [by apply list_elem_of_In | done]. }
    destruct (List.filter terminal (queue s)); [done | cbn; lia]. }
  assert (Hth : threads s = []) by (destruct (threads s); [done | cbn in Hone; lia]).
  eexists. split; [by apply loop_drains_queue |]. cbn.
  repeat split; try done. by rewrite run_callbacks_btn, Hex.
Qed.

(** X16. No way back from a dead worker: in a state where the button is
    disabled, no worker is alive and neither [ui_done] nor [ui_error] is
    waiting (as after an exception has left the worker), whatever happens
    next the button stays disabled and no download starts. *)
Theorem button_stays_disabled (s s' : state) :
  btn_download (widgets s) = disabled →
  threads s = [] →
  count_terminal (queue s) = 0 →
  rtc (step sys) s s' →
  btn_download (widgets s') = disabled ∧ threads s' = [].
Proof.
  intros Hb Ht Hq Hr.
  assert (Hinv : btn_download (widgets s') = disabled ∧ threads s' = []
                 ∧ count_terminal (queue s') = 0); [| by destruct Hinv as (? & ? & ?)].
  apply rtc_ind_r with (x := s)
    (P := λ s, btn_download (widgets s) = disabled ∧ threads s = []
               ∧ count_terminal (queue s) = 0) in Hr; auto.
  clear. intros s1 s2 _ Hstep (Hb & Ht & Hq).
  destruct Hstep as [? text | ? text | ? w' Hn Hrej | ? e Hn Hraised
                     | ? w' fs' url out_dir ydl Hn Hsp
                     | ? pre cb rest post Hth | ? pre post Hth | ? cb q Hqs];
    cbn [widgets files queue threads]; try done; try congruence.
  - rewrite Ht in Hth. by destruct pre.
  - rewrite Ht in Hth. by destruct pre.
  - rewrite Hqs in Hq. unfold count_terminal in *. cbn [List.filter] in Hq.
    destruct (terminal cb) eqn:Hcb; [done |].
    rewrite run_callback_btn, Hcb. done.
Qed.

Lemma start_download_shown (w : Widgets) (fs : FS) (w' : Widgets) :
  start_download w fs = Rejected w' →
  ∃ msg, shown w' = shown w ++ [("Invalid input", msg)].
Proof.
  unfold start_download.
  destruct (negb (is_youtube_url _)); [intros [= <-]; eauto |].
  destruct (negb (truthy_str _)); [intros [= <-]; eauto |].
  destruct (mkdir_parents _ _); done.
Qed.

Lemma start_download_spawned_shown (w : Widgets) (fs : FS) w' fs' url out_dir :
  start_download w fs = Spawned w' fs' url out_dir → shown w' = shown w.
Proof.
  unfold start_download.
  destruct (negb (is_youtube_url _)); [done |].
  destruct (negb (truthy_str _)); [done |].
  destruct (mkdir_parents _ _); [done |]. by intros [= <- _ _ _].
Qed.

(** X17. The only modal boxes the program shows are "Invalid input" and
    "Download error". *)
Theorem shown_titles (downloads : string) (fs : FS) (s : state) :
  reachable sys downloads fs s →
  Forall (λ box : string * string,
            box.1 = "Invalid input" ∨ box.1 = "Download error")
         (shown (widgets s)).
Proof.
  unfold reachable. revert s.
  apply (rtc_ind_r (λ s, Forall (λ box : string * string,
                                   box.1 = "Invalid input" ∨ box.1 = "Download error")
                                (shown (widgets s)))).
  - by constructor.
  - intros s1 s2 _ Hstep Hs.
    destruct Hstep as [? text | ? text | s0 w' Hn Hrej | ? e Hn Hraised
                       | s0 w' fs' url out_dir ydl Hn Hsp
                       | ? pre cb rest post Hth | ? pre post Hth | ? cb q Hqs];
      cbn [widgets files queue threads]; try done.
    + destruct (start_download_shown _ _ _ Hrej) as [msg ->].
      apply Forall_app. split; [done |]. apply Forall_singleton. by left.
    + by rewrite (start_download_spawned_shown _ _ _ _ _ _ Hsp).
    + destruct cb; cbn; try done. apply Forall_app. split; [done |].
      apply Forall_singleton. by right.
Qed.

(** A worker alone schedules all it has left and ends. *)
Lemma worker_drains_script (script : list callback) (s : state) :
  threads s = [script] →
  rtc (step sys) s
    {| widgets := widgets s; files := files s;
       queue := queue s ++ script; threads := [] |}.
Proof.
  revert s. induction script as [| cb rest IH]; intros s Ht.
  - eapply rtc_l; [exact (step_worker_exit sys s [] [] Ht) |].
    cbn [app]. rewrite app_nil_r. apply rtc_refl.
  - eapply rtc_l; [exact (step_worker sys s [] cb rest [] Ht) |].
    destruct rest as [| cb' rest'].
    + cbn [advance app]. apply rtc_refl.
    + cbn [advance app].
      specialize (IH {| widgets := widgets s; files := files s;
                        queue := queue s ++ [cb]; threads := [cb' :: rest'] |}
                     eq_refl).
      cbn [widgets files queue threads] in IH.
      by rewrite <- app_assoc in IH.
Qed.

(** X18. A download whose worker will schedule [ui_done] or [ui_error]
    always can come to its end: the worker schedules what it has left, the
    event loop runs everything, and then no worker is alive, nothing is
    waiting and the button is enabled. *)
Theorem download_completes (s : state) (script : list callback) :
  threads s = [script] →
  existsb terminal script = true →
  ∃ s', rtc (step sys) s s'
        ∧ threads s' = [] ∧ queue s' = []
        ∧ btn_download (widgets s') = normal
        ∧ widgets s' = run_callbacks (queue s ++ script) (widgets s).
Proof.
  intros Ht Hterm. eexists. split.
  - eapply rtc_trans; [by apply worker_drains_script |].
    by apply loop_drains_queue.
  - cbn [widgets files queue threads]. repeat split.
    rewrite run_callbacks_btn, existsb_app, Hterm. by rewrite orb_true_r.
Qed.

End MoreMachineFacts.

Lemma button_stays_disabled_witness :
  let s : @state Concrete.list_os :=
    @Build_state Concrete.list_os
      (set_btn disabled (App_init "/home/u/Downloads"))
      Concrete.fs_bare [cb_note note_detected] [] in
  let s' : @state Concrete.list_os :=
    @Build_state Concrete.list_os
      (run_callback (cb_note note_detected) (widgets s)) (files s) [] (threads s) in
  btn_download (widgets s') = disabled ∧ threads s' = [].
Proof.
  apply (@button_stays_disabled Concrete.ascii_builtins Concrete.list_os
           Concrete.sys_exe
           (@Build_state Concrete.list_os
              (set_btn disabled (App_init "/home/u/Downloads"))
              Concrete.fs_bare [cb_note note_detected] [])); try reflexivity.
  apply rtc_once.
  apply (@step_loop Concrete.ascii_builtins Concrete.list_os Concrete.sys_exe
           (@Build_state Concrete.list_os
              (set_btn disabled (App_init "/home/u/Downloads"))
              Concrete.fs_bare [cb_note note_detected] [])
           (cb_note note_detected) []).
  reflexivity.
Defined.

Lemma shown_titles_witness :
  Forall (λ box : string * string,
            box.1 = "Invalid input" ∨ box.1 = "Download error")
         [("Invalid input", "Please paste a valid YouTube URL.")].
Proof.
  apply (@shown_titles Concrete.ascii_builtins Concrete.list_os Concrete.sys_script
           "/home/u/Downloads" Concrete.fs_bare
           (@Build_state Concrete.list_os
              (showerror "Invalid input" "Please paste a valid YouTube URL."
                 (App_init "/home/u/Downloads"))
              Concrete.fs_bare [] [])).
  unfold reachable. apply rtc_once.
  apply (@step_click_rejected Concrete.ascii_builtins Concrete.list_os
           Concrete.sys_script
           (@initial Concrete.list_os "/home/u/Downloads" Concrete.fs_bare));
    reflexivity.
Defined.

Lemma download_completes_witness :
  let s : @state Concrete.list_os :=
    @Build_state Concrete.list_os
      (set_btn disabled (App_init "/home/u/Downloads"))
      Concrete.fs_bare [cb_note note_not_detected]
      [[cb_update 100%float "Download finished. Processing/merging…";
        cb_done "Done: clip"]] in
  ∃ s' : @state Concrete.list_os,
    rtc (@step Concrete.ascii_builtins Concrete.list_os Concrete.sys_script) s s'
    ∧ threads s' = [] ∧ queue s' = []
    ∧ btn_download (widgets s') = normal
    ∧ widgets s'
      = run_callbacks
          (queue s ++ [cb_update 100%float "Download finished. Processing/merging…";
                       cb_done "Done: clip"]) (widgets s).
Proof.
  apply (@download_completes Concrete.ascii_builtins Concrete.list_os
           Concrete.sys_script
           (@Build_state Concrete.list_os
              (set_btn disabled (App_init "/home/u/Downloads"))
              Concrete.fs_bare [cb_note note_not_detected]
              [[cb_update 100%float "Download finished. Processing/merging…";
                cb_done "Done: clip"]])
           [cb_update 100%float "Download finished. Processing/merging…";
            cb_done "Done: clip"]); reflexivity.
Defined.

(** A schedule that passes a test ends in a reachable state that passes
    it. *)
Lemma run_check `{Builtins} `{OS} (sys : Sys) (acts : list action)
    (downloads : string) (fs : FS) (check : state → bool) :
  from_option check false (run sys acts (initial downloads fs)) = true →
  ∃ s, reachable sys downloads fs s ∧ check s = true.
Proof.
  destruct (run sys acts (initial downloads fs)) as [s |] eqn:Hrun; [| done].
  intros Hc. exists s. split; [exact (run_rtc _ _ _ _ Hrun) | exact Hc].
Qed.

(** [extract_info] raises [SystemExit]: the worker dies, the event loop
    runs the one note it scheduled, and the button is disabled for good. *)
Example dead_worker_reachable :
  ∃ s : state,
    @reachable Concrete.ascii_builtins Concrete.list_os Concrete.sys_exe
      "/home/u/Downloads" Concrete.fs_tools s
    ∧ dead s = true.
Proof.
  apply (run_check Concrete.sys_exe
           [ do_edit_url "https://youtu.be/abc123";
             do_click (λ _ _, Concrete.run_raises (Py.Raise Py.SystemExit "1"));
             do_worker; do_loop ]).
  vm_compute. reflexivity.
Qed.

(** * Further properties of the two format expressions *)

Module MoreSelectorFacts.
Import Selector SelectorFacts.










End MoreSelectorFacts.
